(** * Coffee-shop revenue prediction service: request validation, model
      loading and the prediction handler of [app.py]

    The development follows the source file top to bottom:

    - [PyStr]    the [str] methods the program calls ([strip], [repr]);
    - [PyFloat]  the built-in [float] applied to a [str];
    - [Py]       exceptions, the effect monad and [try ... except];
    - [App]      [load_model], the module-level start-up code,
                 [prepare_input], [index] and [predict];
    - [Terms]    the vocabulary of the statements and sample inputs;
    - the lemmas and theorems about them.

    A Python [str] is a Rocq [string] whose characters are the code points
    0..255.  A Python [float] is an IEEE-754 binary64 value, represented by
    [spec_float] at precision 53 and maximal exponent 1024.  What the
    program gets from outside (the deserializers, the form of the
    request, the template renderer, the loaded object) is given to it as
    what each operation returns or raises; the frame handed to the model
    is mutable, and the model tells how it leaves it. *)

From Stdlib Require Import ZArith NArith List String Ascii Bool Lia.
From Stdlib Require Import DecimalString.
From Stdlib Require Import Floats.SpecFloat.
Import ListNotations.

Local Open Scope string_scope.
Local Open Scope Z_scope.

#[local] Set Warnings "-register-all".

(* ================================================================== *)
(** ** Strings *)

Module PyStr.

Definition code (c : ascii) : Z := Z.of_N (N_of_ascii c).

(** [Py_UNICODE_ISSPACE] on the code points below 256: the characters
    that [str.strip()] removes. *)
Definition isspace (c : ascii) : bool :=
  let n := code c in
  ((9 <=? n) && (n <=? 13)) || ((28 <=? n) && (n <=? 32))
  || (n =? 133) || (n =? 160).

Fixpoint lstrip (s : string) : string :=
  match s with
  | EmptyString => EmptyString
  | String c s' => if isspace c then lstrip s' else s
  end.

Fixpoint rstrip (s : string) : string :=
  match s with
  | EmptyString => EmptyString
  | String c s' =>
      match rstrip s' with
      | EmptyString => if isspace c then EmptyString else String c EmptyString
      | r => String c r
      end
  end.

(** [s.strip()] *)
Definition strip (s : string) : string := rstrip (lstrip s).

(** [needle in hay] *)
Fixpoint contains (needle hay : string) : bool :=
  prefix needle hay ||
  match hay with
  | EmptyString => false
  | String _ hay' => contains needle hay'
  end.

Fixpoint mem (c : ascii) (s : string) : bool :=
  match s with
  | EmptyString => false
  | String d s' => Ascii.eqb c d || mem c s'
  end.

Definition dquote : ascii := Eval cbv in ascii_of_N 34.
Definition squote : ascii := Eval cbv in ascii_of_N 39.
Definition backslash : ascii := Eval cbv in ascii_of_N 92.

Definition hex_digit (n : Z) : ascii :=
  ascii_of_N (Z.to_N (if n <? 10 then 48 + n else 87 + n)).

(** [Py_UNICODE_ISPRINTABLE] on the code points below 256. *)
Definition isprintable (c : ascii) : bool :=
  let n := code c in
  ((32 <=? n) && (n <? 127)) || ((161 <=? n) && negb (n =? 173)).

(** One character of [repr(s)], inside the quotes [q]. *)
Definition repr_char (q c : ascii) : string :=
  let n := code c in
  if Ascii.eqb c q || Ascii.eqb c backslash then String backslash (String c "")
  else if n =? 9 then "\t"
  else if n =? 10 then "\n"
  else if n =? 13 then "\r"
  else if isprintable c then String c ""
  else String backslash (String "x" (String (hex_digit (n / 16))
                                 (String (hex_digit (n mod 16)) ""))).

Fixpoint repr_body (q : ascii) (s : string) : string :=
  match s with
  | EmptyString => EmptyString
  | String c s' => repr_char q c ++ repr_body q s'
  end.

(** The quote of [repr(s)]: a double quote when [s] holds a single quote
    and no double quote, a single quote otherwise. *)
Definition repr_quote (s : string) : ascii :=
  if mem squote s && negb (mem dquote s) then dquote else squote.

(** [repr(s)] for a [str]. *)
Definition repr (s : string) : string :=
  let q := repr_quote s in
  String q (repr_body q s ++ String q "").

(** Characters that [repr] copies unchanged whatever the quote. *)
Definition plain_char (c : ascii) : bool :=
  isprintable c && negb (Ascii.eqb c backslash) && negb (Ascii.eqb c squote)
  && negb (Ascii.eqb c dquote).

Fixpoint plain (s : string) : bool :=
  match s with
  | EmptyString => true
  | String c s' => plain_char c && plain s'
  end.

End PyStr.

(* ================================================================== *)
(** ** Floating-point values and [float(str)] *)

Module PyFloat.

(** A Python [float]: binary64. *)
Definition float : Type := spec_float.

Definition prec : Z := 53.
Definition emax : Z := 1024.

(** The float nearest to [m * 2^e] (ties to even). *)
Definition of_Z2 (m e : Z) : float := binary_normalize prec emax m e false.
Definition of_Z (m : Z) : float := of_Z2 m 0.

Definition nan : float := S754_nan.
Definition inf (neg : bool) : float := S754_infinity neg.

Definition is_finite (x : float) : bool :=
  match x with
  | S754_zero _ | S754_finite _ _ _ => true
  | S754_infinity _ | S754_nan => false
  end.

Definition is_digit (c : ascii) : bool :=
  let n := PyStr.code c in (48 <=? n) && (n <=? 57).

Definition digit_value (c : ascii) : Z := PyStr.code c - 48.

(** ASCII lower case, as [Py_TOLOWER]. *)
Definition tolower (c : ascii) : ascii :=
  let n := PyStr.code c in
  if (65 <=? n) && (n <=? 90) then ascii_of_N (Z.to_N (n + 32)) else c.

Fixpoint lower (s : string) : string :=
  match s with
  | EmptyString => EmptyString
  | String c s' => String (tolower c) (lower s')
  end.

(** [_PyUnicode_TransformDecimalAndSpaceToASCII]: code points below 127
    are kept, a space above becomes a blank, and the text is cut at the
    first other character (no code point in 127..255 is a decimal
    digit), which is replaced by a question mark. *)
Fixpoint to_ascii (s : string) : string :=
  match s with
  | EmptyString => EmptyString
  | String c s' =>
      if PyStr.code c <? 127 then String c (to_ascii s')
      else if PyStr.isspace c then String " " (to_ascii s')
      else "?"
  end.

(** [_Py_string_to_number_with_underscores]: an underscore is accepted
    only between two digits, and is dropped. *)
Fixpoint drop_underscores (prev : option ascii) (s : string) : option string :=
  match s with
  | EmptyString =>
      match prev with
      | Some "_"%char => None
      | _ => Some EmptyString
      end
  | String c s' =>
      if Ascii.eqb c "_" then
        match prev with
        | Some p => if is_digit p then drop_underscores (Some c) s' else None
        | None => None
        end
      else
        match prev with
        | Some "_"%char =>
            if is_digit c
            then option_map (String c) (drop_underscores (Some c) s')
            else None
        | _ => option_map (String c) (drop_underscores (Some c) s')
        end
  end.

(** [Py_ISSPACE]: the white space of the C locale. *)
Definition c_isspace (c : ascii) : bool :=
  let n := PyStr.code c in ((9 <=? n) && (n <=? 13)) || (n =? 32).

Fixpoint c_lstrip (s : string) : string :=
  match s with
  | EmptyString => EmptyString
  | String c s' => if c_isspace c then c_lstrip s' else s
  end.

Fixpoint c_rstrip (s : string) : string :=
  match s with
  | EmptyString => EmptyString
  | String c s' =>
      match c_rstrip s' with
      | EmptyString => if c_isspace c then EmptyString else String c EmptyString
      | r => String c r
      end
  end.

(** The longest prefix of digits, and the rest. *)
Fixpoint span_digits (s : string) : string * string :=
  match s with
  | EmptyString => (EmptyString, EmptyString)
  | String c s' =>
      if is_digit c
      then let '(d, r) := span_digits s' in (String c d, r)
      else (EmptyString, s)
  end.

Fixpoint digits_value (acc : Z) (s : string) : Z :=
  match s with
  | EmptyString => acc
  | String c s' => digits_value (10 * acc + digit_value c) s'
  end.

(** An optional sign: [true] for a minus. *)
Definition take_sign (s : string) : bool * string :=
  match s with
  | String "-" s' => (true, s')
  | String "+" s' => (false, s')
  | _ => (false, s)
  end.

(** The float nearest to [(-1)^neg * m * 10^e]: the quotient of two
    integers, rounded once. *)
Definition of_decimal (neg : bool) (m e : Z) : float :=
  match m with
  | Zpos _ =>
      match m * 10 ^ Z.max e 0, 10 ^ Z.max (- e) 0 with
      | Zpos num, Zpos den =>
          SFdiv prec emax (S754_finite neg num 0) (S754_finite false den 0)
      | _, _ => S754_nan
      end
  | _ => S754_zero neg
  end.

(** The exponent part: empty, or [e]/[E], an optional sign and at least
    one digit, up to the end of the text. *)
Definition parse_exponent (s : string) : option Z :=
  match s with
  | EmptyString => Some 0
  | String c s' =>
      if Ascii.eqb (tolower c) "e" then
        let '(neg, s1) := take_sign s' in
        match span_digits s1 with
        | (String d ds, EmptyString) =>
            let x := digits_value 0 (String d ds) in
            Some (if neg then - x else x)
        | _ => None
        end
      else None
  end.

(** [_Py_dg_strtod] on the text after the sign, when all of it must be
    consumed: digits, an optional point and digits, at least one digit
    in all, and the exponent part. *)
Definition parse_number (neg : bool) (s : string) : option float :=
  let '(ip, s1) := span_digits s in
  let '(fp, s2) :=
    match s1 with
    | String "." s1' => span_digits s1'
    | _ => (EmptyString, s1)
    end in
  match (ip ++ fp)%string with
  | EmptyString => None
  | ds =>
      match parse_exponent s2 with
      | Some x =>
          Some (of_decimal neg (digits_value 0 ds)
                  (x - Z.of_nat (String.length fp)))
      | None => None
      end
  end.

(** [_Py_parse_inf_or_nan] on the text after the sign. *)
Definition parse_inf_or_nan (neg : bool) (s : string) : option float :=
  let l := lower s in
  if String.eqb l "inf" || String.eqb l "infinity" then Some (inf neg)
  else if String.eqb l "nan" then Some nan
  else None.

(** [float(s)] for a [str]: [None] stands for the [ValueError]. *)
Definition of_str (s : string) : option float :=
  match drop_underscores None (to_ascii s) with
  | None => None
  | Some t =>
      let '(neg, u) := take_sign (c_rstrip (c_lstrip t)) in
      match parse_number neg u with
      | Some x => Some x
      | None => parse_inf_or_nan neg u
      end
  end.

End PyFloat.

(* ================================================================== *)
(** ** Exceptions and effects *)

Module Py.

(** The class of what is raised, as far as the [except] clauses of the
    program tell classes apart.  [ValueError] (with its subclasses),
    [RuntimeError], [IndexError] and [OtherError] (any other class
    derived from [Exception]) are instances of [Exception]; [SystemExit]
    and [KeyboardInterrupt] are not, and [except Exception] lets them
    through.  An operation that never returns is not represented. *)
Inductive exc_class : Type :=
| ValueError
| RuntimeError
| IndexError
| OtherError
| SystemExit
| KeyboardInterrupt.

(** A raised error: its class and [str(e)]. *)
Record exn : Type := Exn { exn_class : exc_class; exn_str : string }.

(** The class named by an [except] clause. *)
Inductive except_clause : Type :=
| ExceptValueError
| ExceptException.

Definition isinstance (e : exn) (c : except_clause) : bool :=
  match c, exn_class e with
  | ExceptException, (SystemExit | KeyboardInterrupt) => false
  | ExceptException, _ => true
  | ExceptValueError, ValueError => true
  | ExceptValueError, _ => false
  end.

Inductive outcome (A : Type) : Type :=
| Return (a : A)
| Raise (e : exn).
Arguments Return {A} a.
Arguments Raise {A} e.

Section Prog.

(** [S] is the module namespace the code runs in and [E] the calls it
    makes to its environment, recorded in the order they are made. *)
Context {S E : Type}.

Definition prog (A : Type) : Type := S -> S * list E * outcome A.

Definition ret {A} (a : A) : prog A := fun s => (s, [], Return a).

Definition raise {A} (e : exn) : prog A := fun s => (s, [], Raise e).

Definition bind {A B} (m : prog A) (k : A -> prog B) : prog B :=
  fun s =>
    match m s with
    | (s1, t1, Return a) => let '(s2, t2, r) := k a s1 in (s2, (t1 ++ t2)%list, r)
    | (s1, t1, Raise e) => (s1, t1, Raise e)
    end.

(** Reading a global name. *)
Definition read {A} (f : S -> A) : prog A := fun s => (s, [], Return (f s)).

(** The outcome of an operation that makes no recorded call. *)
Definition lift {A} (o : outcome A) : prog A := fun s => (s, [], o).

(** A call to the environment: the call is recorded and its outcome is
    the outcome of the program. *)
Definition call {A} (ev : E) (o : outcome A) : prog A := fun s => (s, [ev], o).

(** [try: body  except c as e: handler e  else: orelse a].  An error
    that is not an instance of [c] propagates, and so does an error
    of the handler or of the else part. *)
Definition try_ {A B} (body : prog A) (c : except_clause)
           (handler : exn -> prog B) (orelse : A -> prog B) : prog B :=
  fun s =>
    match body s with
    | (s1, t1, Return a) => let '(s2, t2, r) := orelse a s1 in (s2, (t1 ++ t2)%list, r)
    | (s1, t1, Raise e) =>
        if isinstance e c
        then let '(s2, t2, r) := handler e s1 in (s2, (t1 ++ t2)%list, r)
        else (s1, t1, Raise e)
    end.

(** [for x in l: acc = body x acc] *)
Fixpoint for_ {A B} (l : list A) (acc : B) (body : A -> B -> prog B) : prog B :=
  match l with
  | [] => ret acc
  | x :: l' => bind (body x acc) (fun acc' => for_ l' acc' body)
  end.

End Prog.

Arguments prog : clear implicits.

Declare Scope prog_scope.
Delimit Scope prog_scope with prog.
Notation "x <- m ;; k" := (bind m (fun x => k))
  (at level 61, m at next level, right associativity) : prog_scope.

End Py.

(* ================================================================== *)
(** ** The application *)

Module App.

Import Py.
Local Open Scope prog_scope.

Definition float : Type := PyFloat.float.

(** *** Collaborators: pandas, the model object, flask *)

(** A [pandas.DataFrame] of floats: the column labels and the rows. *)
Record DataFrame : Type := mkDataFrame
  { columns : list string; rows : list (list float) }.

Definition decimal (n : nat) : string := NilZero.string_of_uint (Nat.to_uint n).

(** [pd.DataFrame([row], columns=cols)], the one call the program
    makes: the row must have one value per column. *)
Definition pd_DataFrame {S E} (row : list float) (cols : list string)
  : prog S E DataFrame :=
  if (List.length row =? List.length cols)%nat
  then ret (mkDataFrame cols [row])
  else raise (Exn ValueError
                (decimal (List.length cols) ++ " columns passed, passed data had "
                 ++ decimal (List.length row) ++ " columns")).

(** A Python [dict] with [str] keys: the items in insertion order; a
    key set again keeps its place and takes the new value. *)
Definition dict (V : Type) : Type := list (string * V).

Fixpoint dict_set {V} (d : dict V) (k : string) (v : V) : dict V :=
  match d with
  | [] => [(k, v)]
  | (k', v') :: d' =>
      if String.eqb k' k then (k', v) :: d' else (k', v') :: dict_set d' k v
  end.

(** [dict(zip(keys, values))] *)
Definition dict_zip {V} (keys : list string) (values : list V) : dict V :=
  fold_left (fun d kv => dict_set d (fst kv) (snd kv)) (combine keys values) [].

(** [df.to_dict(orient="records")]: one dict per row. *)
Definition to_dict_records (df : DataFrame) : list (dict float) :=
  map (dict_zip (columns df)) (rows df).

(** [l[0]] on a list. *)
Definition list_getitem0 {S E A} (l : list A) : prog S E A :=
  match l with
  | [] => raise (Exn IndexError "list index out of range")
  | x :: _ => ret x
  end.

(** The loaded object is opaque: the program only calls
    [model.predict(df)], subscripts the result with [0] and converts
    that to [float].  Each of the three steps is code of the object: it
    returns or raises, and it is handed, or can reach, the frame [df],
    which is mutable; so each step is given the frame and tells how it
    leaves it.  The object is taken as it is when the request is
    handled. *)
Record element : Type := mkElement
  { elem_float : DataFrame -> DataFrame * outcome float }.
Record prediction : Type := mkPrediction
  { pred_getitem0 : DataFrame -> DataFrame * outcome element }.
Record Model : Type := mkModel
  { model_predict : DataFrame -> DataFrame * outcome prediction }.

(** The three deserializers of [load_model]. *)
Inductive strategy : Type := Joblib | PickleLatin1 | Dill.

(** What each deserializer does on a path: it returns the stored object
    ([None] when the file holds Python's [None]) or fails.  The import
    of the library and the opening of the file are part of the attempt.
    A failure of an attempt is an instance of [Exception], which is what
    the three [except Exception] clauses of [load_model] are written
    for. *)
Record loaders : Type := mkLoaders
  { joblib_load : string -> outcome (option Model);
    pickle_load_latin1 : string -> outcome (option Model);
    dill_load : string -> outcome (option Model);
    load_failure_is_error :
      forall path e,
        joblib_load path = Raise e
        \/ pickle_load_latin1 path = Raise e
        \/ dill_load path = Raise e ->
        isinstance e ExceptException = true }.

(** The calls made to the environment. *)
Inductive event : Type :=
| EvLoad (st : strategy) (path : string)
| EvPredict (df : DataFrame).

(** JSON values, and what a view returns.  A body is compared as a
    value: the order in which [jsonify] writes the keys is not modelled. *)
Inductive json : Type :=
| JBool (b : bool)
| JString (s : string)
| JNumber (x : float)
| JObject (items : dict json).

Inductive body : Type :=
| Json (j : json)
| Html (page : string).

Record response : Type := mkResponse { status : Z; resp_body : body }.

(** [jsonify(d)] alone is a response of status 200; [jsonify(d), n] has
    status [n]. *)
Definition jsonify (d : dict json) : body := Json (JObject d).

(** A form as [request.form] gives it: the submitted pairs in order;
    [form.get(k, default)] is the first value submitted under [k].
    Evaluating [request.form] parses the body of the request and can
    raise; a view is given what that evaluation does. *)
Definition form : Type := list (string * string).

Fixpoint form_get (f : form) (k : string) (default : string) : string :=
  match f with
  | [] => default
  | (k', v) :: f' => if String.eqb k' k then v else form_get f' k default
  end.

(** *** [app.py] *)

Definition try_strategy {S} (env : loaders) (st : strategy) (path : string)
  : prog S event (option Model) :=
  call (EvLoad st path)
    match st with
    | Joblib => joblib_load env path
    | PickleLatin1 => pickle_load_latin1 env path
    | Dill => dill_load env path
    end.

(** [repr] of a list of pairs of [str]. *)
Definition repr_pair (p : string * string) : string :=
  "(" ++ PyStr.repr (fst p) ++ ", " ++ PyStr.repr (snd p) ++ ")".

Fixpoint repr_items (l : list (string * string)) : string :=
  match l with
  | [] => EmptyString
  | [p] => repr_pair p
  | p :: l' => repr_pair p ++ ", " ++ repr_items l'
  end.

Definition repr_list (l : list (string * string)) : string :=
  "[" ++ repr_items l ++ "]".

Definition load_failure_prefix : string :=
  "Model could not be loaded. Tried joblib, pickle(latin1), dill. Errors: ".

Definition load_model {S} (env : loaders) (path : string)
  : prog S event (option Model) :=
  let errs : list (string * string) := [] in
  try_ (try_strategy env Joblib path) ExceptException
    (fun e =>
       let errs := (errs ++ [("joblib", exn_str e)])%list in
       try_ (try_strategy env PickleLatin1 path) ExceptException
         (fun e =>
            let errs := (errs ++ [("pickle_latin1", exn_str e)])%list in
            try_ (try_strategy env Dill path) ExceptException
              (fun e =>
                 let errs := (errs ++ [("dill", exn_str e)])%list in
                 raise (Exn RuntimeError (load_failure_prefix ++ repr_list errs)))
              (fun m => ret m))
         (fun m => ret m))
    (fun m => ret m).

Definition FEATURES : list string :=
  [ "Number_of_Customers_Per_Day";
    "Average_Order_Value";
    "Operating_Hours_Per_Day";
    "Number_of_Employees";
    "Marketing_Spend_Per_Day";
    "Location_Foot_Traffic" ].

(** [os.path.join("models", "coffee.pkl")] with the POSIX separator. *)
Definition MODEL_PATH : string := "models" ++ "/" ++ "coffee.pkl".

(** The module-level names read by the views. *)
Record globals : Type := mkGlobals
  { g_FEATURES : list string;
    g_model : option Model;
    g_model_load_error : option string }.

(** The module-level code, lines 36 to 57: the result is the namespace
    the views run in. *)
Definition startup (env : loaders) : prog unit event globals :=
  let features := FEATURES in
  try_ (load_model env MODEL_PATH) ExceptException
    (fun e => ret (mkGlobals features None (Some (exn_str e))))
    (fun m => ret (mkGlobals features m None)).

Definition view (A : Type) : Type := prog globals event A.

(** What [render_template(name, features=..., model_error=...)] does:
    the page, or an error (a template that is not found, for one). *)
Definition renderer : Type :=
  string -> list string -> option string -> outcome string.

Definition index (render_template : renderer) : view response :=
  features <- read g_FEATURES ;;
  model_error <- read g_model_load_error ;;
  page <- lift (render_template "index.html" features model_error) ;;
  ret (mkResponse 200 (Html page)).

(** [float(raw)] *)
Definition py_float (raw : string) : view float :=
  match PyFloat.of_str raw with
  | Some x => ret x
  | None =>
      raise (Exn ValueError
               ("could not convert string to float: " ++ PyStr.repr raw))
  end.

(** The body of the loop of [prepare_input], for the field [feat] and
    the [values] collected so far. *)
Definition prepare_input_field (f : form) (feat : string) (values : list float)
  : view (list float) :=
  let raw := PyStr.strip (form_get f feat "") in
  if String.eqb raw "" then
    raise (Exn ValueError ("Missing value for " ++ feat))
  else
    try_ (py_float raw) ExceptValueError
      (fun _ =>
         raise (Exn ValueError
                  ("Invalid numeric value for " ++ feat ++ ": '" ++ raw ++ "'")))
      (fun val => ret (values ++ [val])%list).

Definition prepare_input (f : form) : view DataFrame :=
  features <- read g_FEATURES ;;
  values <- for_ features ([] : list float) (prepare_input_field f) ;;
  features <- read g_FEATURES ;;
  pd_DataFrame values features.

(** [model_load_error or "unknown"] *)
Definition or_unknown (e : option string) : string :=
  match e with
  | None | Some EmptyString => "unknown"
  | Some s => s
  end.

(** What a step of the model gives the program: its result together
    with the frame as the step leaves it; after an error the program
    does not use the frame again. *)
Definition landed {A} (r : DataFrame * outcome A) : outcome (DataFrame * A) :=
  match r with
  | (df', Return a) => Return (df', a)
  | (_, Raise e) => Raise e
  end.

(** [predict]: [request_form] is what evaluating [request.form] does; it
    is evaluated inside the first [try].  After the second [try] the
    frame is read again, as the model left it. *)
Definition predict (request_form : outcome form) : view response :=
  model <- read g_model ;;
  match model with
  | None =>
      model_load_error <- read g_model_load_error ;;
      ret (mkResponse 500
             (jsonify [("success", JBool false);
                       ("error", JString ("Model not loaded: "
                                          ++ or_unknown model_load_error))]))
  | Some model =>
      try_ (f <- lift request_form ;; prepare_input f) ExceptException
        (fun e =>
           ret (mkResponse 400
                  (jsonify [("success", JBool false);
                            ("error", JString (exn_str e))])))
        (fun df =>
           try_ (pred <- call (EvPredict df) (landed (model_predict model df)) ;;
                 x <- lift (landed (pred_getitem0 (snd pred) (fst pred))) ;;
                 lift (landed (elem_float (snd x) (fst x))))
             ExceptException
             (fun e =>
                ret (mkResponse 500
                       (jsonify [("success", JBool false);
                                 ("error", JString ("Model prediction failed: "
                                                    ++ exn_str e))])))
             (fun r =>
                let df := fst r in
                let revenue := snd r in
                record <- list_getitem0 (to_dict_records df) ;;
                ret (mkResponse 200
                       (jsonify [("success", JBool true);
                                 ("prediction", JNumber revenue);
                                 ("input", JObject (map (fun kv => (fst kv, JNumber (snd kv))) record))]))))
  end.

(** The two routes. *)
Inductive request : Type :=
| GET_index (render_template : renderer)
| POST_predict (request_form : outcome form).

Definition handle (r : request) : view response :=
  match r with
  | GET_index render_template => index render_template
  | POST_predict request_form => predict request_form
  end.

(** Serving requests one after the other from a namespace: the
    namespace left, and for each request the calls made and the
    outcome of its view. *)
Fixpoint serve (g : globals) (rs : list request)
  : globals * list (list event * outcome response) :=
  match rs with
  | [] => (g, [])
  | r :: rs' =>
      let '(g1, t, o) := handle r g in
      let '(g2, out) := serve g1 rs' in
      (g2, (t, o) :: out)
  end.

End App.

(* ================================================================== *)
(** ** Terms of the statements, and sample inputs *)

Module Terms.

Import Py App.

(** The text the builder examines for a field: [form.get(feat, "").strip()]. *)
Definition raw_value (f : form) (feat : string) : string :=
  PyStr.strip (form_get f feat "").

(** The field is neither blank nor rejected by [float], which reads [v]. *)
Definition numeric (f : form) (feat : string) (v : float) : Prop :=
  raw_value f feat <> "" /\ PyFloat.of_str (raw_value f feat) = Some v.

Definition missing_error (feat : string) : exn :=
  Exn ValueError ("Missing value for " ++ feat).

Definition invalid_error (feat raw : string) : exn :=
  Exn ValueError ("Invalid numeric value for " ++ feat ++ ": '" ++ raw ++ "'").

(** The first field, in schema order, that is blank or rejected stops
    the loop with [e]; the fields before it are numeric. *)
Inductive stops_at (f : form) (feats : list string) (e : exn) : Prop :=
| StopsMissing (pre post : list string) (x : string) (vs : list float) :
    feats = (pre ++ x :: post)%list ->
    Forall2 (numeric f) pre vs ->
    raw_value f x = "" ->
    e = missing_error x ->
    stops_at f feats e
| StopsInvalid (pre post : list string) (x : string) (vs : list float) :
    feats = (pre ++ x :: post)%list ->
    Forall2 (numeric f) pre vs ->
    raw_value f x <> "" ->
    PyFloat.of_str (raw_value f x) = None ->
    e = invalid_error x (raw_value f x) ->
    stops_at f feats e.

(** [float(model.predict(df)[0])]: the frame as the three steps leave
    it, and the float or the first error. *)
Definition invoke (m : Model) (df : DataFrame) : DataFrame * outcome float :=
  match model_predict m df with
  | (df1, Return pred) =>
      match pred_getitem0 pred df1 with
      | (df2, Return x) => elem_float x df2
      | (df2, Raise e) => (df2, Raise e)
      end
  | (df1, Raise e) => (df1, Raise e)
  end.

(** The operation returns, or raises an instance of [Exception]. *)
Definition catchable {A} (o : outcome A) : Prop :=
  match o with
  | Return _ => True
  | Raise e => isinstance e ExceptException = true
  end.

(** The JSON objects of the answers, written out. *)
Definition failure_json (message : string) : body :=
  Json (JObject [("success", JBool false); ("error", JString message)]).

Definition success_json (revenue : float) (record : dict float) : body :=
  Json (JObject
          [("success", JBool true);
           ("prediction", JNumber revenue);
           ("input", JObject (map (fun kv => (fst kv, JNumber (snd kv))) record))]).

(** The message of [load_model] when the three attempts raised
    [e1], [e2] and [e3]. *)
Definition aggregated_message (e1 e2 e3 : exn) : string :=
  load_failure_prefix
  ++ repr_list [("joblib", exn_str e1); ("pickle_latin1", exn_str e2);
                ("dill", exn_str e3)].

(** The three attempts, in the order of the source. *)
Definition all_attempts (path : string) : list event :=
  [EvLoad Joblib path; EvLoad PickleLatin1 path; EvLoad Dill path].

(** The two forms give every field of [feats] the same value. *)
Definition agree_on (feats : list string) (f1 f2 : form) : Prop :=
  forall feat, In feat feats -> form_get f1 feat "" = form_get f2 feat "".

(** A Python list of floats, as the result of [predict]: subscripting
    and conversion leave the frame alone. *)
Definition float_list (l : list float) : prediction :=
  mkPrediction
    (fun df =>
       (df,
        match l with
        | [] => Raise (Exn IndexError "list index out of range")
        | x :: _ => Return (mkElement (fun df' => (df', Return x)))
        end)).

(** A stub model whose [predict] returns [[42.0]] and leaves the frame
    alone. *)
Definition stub_model : Model :=
  mkModel (fun df => (df, Return (float_list [PyFloat.of_Z 42]))).

Definition canonical_form : form :=
  [ ("Number_of_Customers_Per_Day", "100");
    ("Average_Order_Value", "5.5");
    ("Operating_Hours_Per_Day", "10");
    ("Number_of_Employees", "3");
    ("Marketing_Spend_Per_Day", "20");
    ("Location_Foot_Traffic", "200") ].

(** 100.0, 5.5, 10.0, 3.0, 20.0 and 200.0 *)
Definition canonical_values : list float :=
  [ PyFloat.of_Z 100; PyFloat.of_Z2 11 (-1); PyFloat.of_Z 10;
    PyFloat.of_Z 3; PyFloat.of_Z 20; PyFloat.of_Z 200 ].

Definition stub_globals : globals := mkGlobals FEATURES (Some stub_model) None.

(** A form whose values are all accepted and not all finite. *)
Definition nonfinite_form : form :=
  [ ("Number_of_Customers_Per_Day", "nan");
    ("Average_Order_Value", "inf");
    ("Operating_Hours_Per_Day", "-infinity");
    ("Number_of_Employees", "1e5");
    ("Marketing_Spend_Per_Day", " -0 ");
    ("Location_Foot_Traffic", "1_000.5") ].

Definition nonfinite_values : list float :=
  [ PyFloat.nan; PyFloat.inf false; PyFloat.inf true; PyFloat.of_Z 100000;
    S754_zero true; PyFloat.of_Z2 2001 (-1) ].

(** A first field that is not a number, and no second field. *)
Definition letters_then_blank : form :=
  [ ("Number_of_Customers_Per_Day", "abc") ].

(** No first field, and a second field that is not a number. *)
Definition blank_then_letters : form :=
  [ ("Average_Order_Value", "abc") ].

(** Environments for the loader. *)
Definition import_error (name : string) : exn :=
  Exn OtherError ("No module named '" ++ name ++ "'").

Definition nothing_loads : loaders :=
  mkLoaders (fun _ => Raise (import_error "joblib"))
            (fun _ => Raise (Exn OtherError "invalid load key, 'x'."))
            (fun _ => Raise (import_error "dill"))
            ltac:(intros path e [H | [H | H]]; injection H as <-; reflexivity).

Definition only_dill_loads : loaders :=
  mkLoaders (fun _ => Raise (import_error "joblib"))
            (fun _ => Raise (Exn OtherError "invalid load key, 'x'."))
            (fun _ => Return (Some stub_model))
            ltac:(intros path e [H | [H | H]];
                  [injection H as <-; reflexivity
                  | injection H as <-; reflexivity
                  | discriminate H]).

Definition unavailable_globals : globals :=
  mkGlobals FEATURES None
    (Some (aggregated_message (import_error "joblib")
             (Exn OtherError "invalid load key, 'x'.") (import_error "dill"))).

(** Every character of the text is white space for [str.strip()]. *)
Fixpoint all_space (s : string) : bool :=
  match s with
  | EmptyString => true
  | String c s' => PyStr.isspace c && all_space s'
  end.

(** The keys submitted, in order, with repetitions. *)
Definition keys (f : form) : list string := map fst f.

(** The calls a run recorded. *)
Definition trace_of {A} (r : globals * list event * outcome A) : list event :=
  snd (fst r).

(** An artifact that holds Python's [None]: joblib reads it. *)
Definition none_stored : loaders :=
  mkLoaders (fun _ => Return None)
            (fun _ => Return None)
            (fun _ => Return None)
            ltac:(intros path e [H | [H | H]]; discriminate H).

(** The code points below 256 that [str.strip()] removes. *)
Definition strip_code_points : list Z :=
  [9; 10; 11; 12; 13; 28; 29; 30; 31; 32; 133; 160].

(** A text that does not start, or does not end, with white space. *)
Definition starts_clean (s : string) : bool :=
  match s with
  | EmptyString => true
  | String c _ => negb (PyStr.isspace c)
  end.

Fixpoint ends_clean (s : string) : bool :=
  match s with
  | EmptyString => true
  | String c EmptyString => negb (PyStr.isspace c)
  | String _ s' => ends_clean s'
  end.

(** [core] is [s] without the white space at its two ends. *)
Definition trims_to (s core : string) : Prop :=
  exists a b,
    s = a ++ core ++ b
    /\ all_space a = true /\ all_space b = true
    /\ starts_clean core = true /\ ends_clean core = true.

(** The form parser of the framework, which is not part of the
    repository, as its documentation gives it: evaluating [request.form]
    on a body of more than [max_form_parts] parts raises
    [RequestEntityTooLarge], an [Exception] whose [str] is the text
    below; otherwise it gives the submitted pairs. *)
Definition max_form_parts : nat := 1000.

Definition request_entity_too_large : exn :=
  Exn OtherError
    "413 Request Entity Too Large: The data value transmitted exceeds the capacity limit.".

Definition read_form (pairs : form) : outcome form :=
  if (List.length pairs <=? max_form_parts)%nat
  then Return pairs
  else Raise request_entity_too_large.

(** The canonical submission followed by 995 pairs under a key outside
    the schema. *)
Definition crowded_form : form := (canonical_form ++ repeat ("note", "x") 995)%list.






(** [prepare_input] raises the error of the first schema field, in
    schema order, that is blank or rejected: the fields before [y] are
    numeric, and [y] is blank and reported missing, or rejected by
    [float] and reported invalid with its trimmed value. *)
Definition first_failure_reported (f : form) (g : globals) : Prop :=
  exists pre y post vs,
    g_FEATURES g = (pre ++ y :: post)%list
    /\ Forall2 (numeric f) pre vs
    /\ ((raw_value f y = ""
         /\ prepare_input f g
            = (g, [], Raise (Exn ValueError ("Missing value for " ++ y))))
        \/ (raw_value f y <> ""
            /\ PyFloat.of_str (raw_value f y) = None
            /\ prepare_input f g
               = (g, [],
                  Raise (Exn ValueError
                           ("Invalid numeric value for " ++ y ++ ": '"
                            ++ raw_value f y ++ "'"))))).

(** Two renderers: one that writes the load error it is given, and one
    that does not find the template. *)
Definition error_page : renderer :=
  fun _ _ model_error =>
    Return match model_error with Some e => e | None => "" end.

Definition template_missing : renderer :=
  fun name _ _ => Raise (Exn OtherError name).

End Terms.

(* ================================================================== *)
(** ** The text operations on samples *)

Module Samples.

Example strip_blanks : PyStr.strip "  a b  " = "a b".
Proof. reflexivity. Qed.

Example strip_only_blanks : PyStr.strip "   " = "".
Proof. reflexivity. Qed.

Example repr_with_single_quote :
  PyStr.repr "No module named 'joblib'"
  = String PyStr.dquote ("No module named 'joblib'" ++ String PyStr.dquote "").
Proof. reflexivity. Qed.

Example repr_with_backslash :
  PyStr.repr (String PyStr.backslash "n")
  = String PyStr.squote
      (String PyStr.backslash (String PyStr.backslash ("n" ++ String PyStr.squote ""))).
Proof. reflexivity. Qed.

(** 0.1 is read as 7205759403792794 * 2^-56, the nearest binary64. *)
Example float_tenth : PyFloat.of_str "0.1" = Some (PyFloat.of_Z2 7205759403792794 (-56)).
Proof. vm_compute. reflexivity. Qed.

(** 2^53 + 1 is a tie and rounds to the even neighbour 2^53. *)
Example float_tie_to_even :
  PyFloat.of_str "9007199254740993" = Some (PyFloat.of_Z2 1 53).
Proof. vm_compute. reflexivity. Qed.

Example float_overflow : PyFloat.of_str "1e400" = Some (PyFloat.inf false).
Proof. vm_compute. reflexivity. Qed.

Example float_underflow : PyFloat.of_str "-1e-400" = Some (S754_zero true).
Proof. vm_compute. reflexivity. Qed.

Example float_forms_accepted :
  map PyFloat.of_str ["1."; ".5e+1"; " 12 "; "1_000.5"; "+Inf"; "NaN"]
  = [Some (PyFloat.of_Z 1); Some (PyFloat.of_Z 5); Some (PyFloat.of_Z 12);
     Some (PyFloat.of_Z2 2001 (-1)); Some (PyFloat.inf false); Some PyFloat.nan].
Proof. vm_compute. reflexivity. Qed.

Example float_forms_rejected :
  map PyFloat.of_str [""; "abc"; "."; "1e"; "1 2"; "1__0"; "_1"; "0x10"; "infin"; "1,5"]
  = [None; None; None; None; None; None; None; None; None; None].
Proof. vm_compute. reflexivity. Qed.

End Samples.

(* ================================================================== *)
(** ** Facts about strings *)

Module PyStrFacts.

Import PyStr.

Lemma prefix_app (s t : string) : prefix s (s ++ t) = true.
Proof.
  induction s as [|c s IH]; simpl.
  - now destruct t.
  - destruct (ascii_dec c c); [exact IH | congruence].
Qed.

Lemma contains_eq (n h : string) :
  contains n h =
  prefix n h || match h with EmptyString => false | String _ h' => contains n h' end.
Proof. destruct h; reflexivity. Qed.

Lemma contains_app (a n b : string) : contains n (a ++ n ++ b) = true.
Proof.
  induction a as [|c a IH]; simpl.
  - rewrite contains_eq, prefix_app. reflexivity.
  - rewrite IH. apply orb_true_r.
Qed.

Lemma prefix_app_l (x a b : string) : prefix x a = true -> prefix x (a ++ b) = true.
Proof.
  revert a. induction x as [|c x IH]; intros a H; [now destruct (a ++ b)|].
  destruct a as [|d a]; simpl in *; [discriminate|].
  destruct (ascii_dec c d); [now apply IH | discriminate].
Qed.

Lemma contains_app_l (x a b : string) :
  contains x a = true -> contains x (a ++ b) = true.
Proof.
  induction a as [|c a IH]; intros H.
  - rewrite contains_eq in H. simpl in H. rewrite orb_false_r in H.
    rewrite contains_eq, (prefix_app_l x "" b H). reflexivity.
  - rewrite contains_eq in H. apply orb_true_iff in H as [H | H].
    + rewrite contains_eq, (prefix_app_l x _ b H). reflexivity.
    + simpl. rewrite (IH H). apply orb_true_r.
Qed.

Lemma contains_app_r (x a b : string) :
  contains x b = true -> contains x (a ++ b) = true.
Proof.
  intros H. induction a as [|c a IH]; simpl; [assumption|].
  rewrite IH. apply orb_true_r.
Qed.

Lemma contains_cons (x : string) (c : ascii) (b : string) :
  contains x b = true -> contains x (String c b) = true.
Proof. intros H. simpl. rewrite H. apply orb_true_r. Qed.

Lemma contains_head (x b : string) : contains x (x ++ b) = true.
Proof. rewrite contains_eq, prefix_app. reflexivity. Qed.

Lemma contains_suffix (a n : string) : contains n (a ++ n) = true.
Proof.
  replace (a ++ n) with (a ++ n ++ "").
  - apply contains_app.
  - f_equal. induction n; simpl; congruence.
Qed.

Lemma contains_empty (s : string) : contains "" s = true.
Proof. destruct s; reflexivity. Qed.

Lemma plain_no_quote (q : ascii) (s : string) :
  plain s = true -> (q = squote \/ q = dquote) -> mem q s = false.
Proof.
  intros Hp Hq. induction s as [|c s IH]; simpl in *; [reflexivity|].
  apply andb_true_iff in Hp as [Hc Hs]. rewrite (IH Hs), orb_false_r.
  unfold plain_char in Hc.
  repeat (apply andb_true_iff in Hc as [Hc ?]).
  destruct Hq as [-> | ->]; apply Ascii.eqb_neq; intros <-;
    rewrite Ascii.eqb_refl in *; discriminate.
Qed.

Lemma repr_char_plain (c : ascii) :
  plain_char c = true -> repr_char squote c = String c "".
Proof.
  unfold plain_char, repr_char. intros H.
  repeat (apply andb_true_iff in H as [H ?]).
  rewrite negb_true_iff in *.
  replace (Ascii.eqb c squote) with false by congruence.
  replace (Ascii.eqb c backslash) with false by congruence.
  rewrite H. simpl.
  unfold isprintable in H.
  destruct (code c =? 9) eqn:E9; [apply Z.eqb_eq in E9; rewrite E9 in H; discriminate|].
  destruct (code c =? 10) eqn:E10; [apply Z.eqb_eq in E10; rewrite E10 in H; discriminate|].
  destruct (code c =? 13) eqn:E13; [apply Z.eqb_eq in E13; rewrite E13 in H; discriminate|].
  reflexivity.
Qed.

(** [repr] of a text without quote, backslash or unprintable character
    is the text between single quotes. *)
Lemma repr_plain (s : string) :
  plain s = true -> repr s = String squote (s ++ String squote "").
Proof.
  intros Hp. unfold repr, repr_quote.
  rewrite (plain_no_quote squote s Hp) by now left. simpl. f_equal. f_equal.
  induction s as [|c s IH]; simpl in *; [reflexivity|].
  apply andb_true_iff in Hp as [Hc Hs].
  rewrite (repr_char_plain c Hc), (IH Hs). reflexivity.
Qed.

Lemma append_assoc (a b c : string) : (a ++ b) ++ c = a ++ b ++ c.
Proof. induction a as [|x a IH]; simpl; congruence. Qed.

Lemma prefix_split (x h : string) : prefix x h = true -> exists b, h = x ++ b.
Proof.
  revert h. induction x as [|c x IH]; intros h H.
  - now exists h.
  - destruct h as [|d h]; simpl in H; [discriminate|].
    destruct (ascii_dec c d) as [<-|]; [|discriminate].
    destruct (IH h H) as [b ->]. now exists b.
Qed.

Lemma contains_split (x h : string) :
  contains x h = true -> exists a b, h = a ++ x ++ b.
Proof.
  induction h as [|c h IH]; intros H; rewrite contains_eq in H;
    apply orb_true_iff in H as [H | H].
  - destruct (prefix_split _ _ H) as [b Hb]. now exists "", b.
  - discriminate.
  - destruct (prefix_split _ _ H) as [b Hb]. now exists "", b.
  - destruct (IH H) as [a [b ->]]. now exists (String c a), b.
Qed.

Lemma contains_trans (x y z : string) :
  contains x y = true -> contains y z = true -> contains x z = true.
Proof.
  intros Hxy Hyz.
  destruct (contains_split _ _ Hxy) as [a [b ->]].
  destruct (contains_split _ _ Hyz) as [c [d ->]].
  replace (c ++ (a ++ x ++ b) ++ d) with ((c ++ a) ++ x ++ (b ++ d)).
  - apply contains_app.
  - now rewrite !append_assoc.
Qed.

Lemma contains_repr_plain (s : string) :
  plain s = true -> contains s (repr s) = true.
Proof.
  intros H. rewrite (repr_plain s H). apply contains_cons, contains_head.
Qed.

(** Finds [x] among the pieces of a text [a1 ++ (a2 ++ (... ++ an))]. *)
Ltac find_piece :=
  lazymatch goal with
  | |- contains ?x (?x ++ _) = true => apply contains_head
  | |- contains ?x (?a ++ ?b) = true => apply (contains_app_r x a b); find_piece
  end.

End PyStrFacts.

(* ================================================================== *)
(** ** Facts about the Input Builder *)

Module InputFacts.

Import Py App Terms.

Section Field.

Variables (f : form) (feat : string) (values : list float) (g : globals).

Lemma field_missing :
  raw_value f feat = "" ->
  prepare_input_field f feat values g = (g, [], Raise (missing_error feat)).
Proof.
  unfold prepare_input_field, raw_value. intros ->. reflexivity.
Qed.

Lemma field_numeric (v : float) :
  numeric f feat v ->
  prepare_input_field f feat values g = (g, [], Return (values ++ [v])%list).
Proof.
  unfold prepare_input_field, numeric, raw_value. intros [Hne Hv].
  apply String.eqb_neq in Hne. rewrite Hne.
  unfold try_, py_float. rewrite Hv. reflexivity.
Qed.

Lemma field_invalid :
  raw_value f feat <> "" ->
  PyFloat.of_str (raw_value f feat) = None ->
  prepare_input_field f feat values g
  = (g, [], Raise (invalid_error feat (raw_value f feat))).
Proof.
  unfold prepare_input_field, raw_value. intros Hne Hv.
  apply String.eqb_neq in Hne. rewrite Hne.
  unfold try_, py_float. rewrite Hv. reflexivity.
Qed.

(** A field is blank, numeric or rejected. *)
Lemma field_cases :
  raw_value f feat = ""
  \/ (exists v, numeric f feat v)
  \/ (raw_value f feat <> "" /\ PyFloat.of_str (raw_value f feat) = None).
Proof.
  destruct (String.eqb_spec (raw_value f feat) "") as [E | E]; [now left | right].
  destruct (PyFloat.of_str (raw_value f feat)) as [v|] eqn:Hv.
  - left. exists v. now split.
  - right. now split.
Qed.

End Field.

Lemma stops_at_cons (f : form) (x : string) (v : float) (feats : list string) (e : exn) :
  numeric f x v -> stops_at f feats e -> stops_at f (x :: feats) e.
Proof.
  intros Hx [pre post y vs -> Hpre Hy He | pre post y vs -> Hpre Hy Hn He].
  - now apply (StopsMissing f _ e (x :: pre) post y (v :: vs)); auto.
  - now apply (StopsInvalid f _ e (x :: pre) post y (v :: vs)); auto.
Qed.

Lemma loop_numeric (f : form) (feats : list string) (vs acc : list float) (g : globals) :
  Forall2 (numeric f) feats vs ->
  for_ feats acc (prepare_input_field f) g = (g, [], Return (acc ++ vs)%list).
Proof.
  intros H. revert acc. induction H as [|x v feats vs Hx _ IH]; intros acc; simpl.
  - unfold ret. now rewrite app_nil_r.
  - unfold bind. rewrite (field_numeric f x acc g v Hx), IH.
    now rewrite <- app_assoc.
Qed.

Lemma loop_stops (f : form) (feats : list string) (e : exn) (acc : list float) (g : globals) :
  stops_at f feats e ->
  for_ feats acc (prepare_input_field f) g = (g, [], Raise e).
Proof.
  assert (Hgen : forall pre vs x post e0,
             Forall2 (numeric f) pre vs ->
             (forall a, prepare_input_field f x a g = (g, [], Raise e0)) ->
             forall a, for_ (pre ++ x :: post) a (prepare_input_field f) g
                       = (g, [], Raise e0)).
  { intros pre vs x post e0 Hpre Hx.
    induction Hpre as [|y v pre vs Hy _ IH]; intros a; simpl; unfold bind.
    - now rewrite Hx.
    - now rewrite (field_numeric f y a g v Hy), IH. }
  intros [pre post x vs -> Hpre Hx -> | pre post x vs -> Hpre Hx Hn ->].
  - apply (Hgen pre vs); auto. intros a. now apply field_missing.
  - apply (Hgen pre vs); auto. intros a. now apply field_invalid.
Qed.

(** Every list of fields is numeric throughout or stops somewhere. *)
Lemma loop_cases (f : form) (feats : list string) :
  (exists vs, Forall2 (numeric f) feats vs) \/ (exists e, stops_at f feats e).
Proof.
  induction feats as [|x feats IH].
  - left. exists []. constructor.
  - destruct (field_cases f x) as [Hm | [[v Hv] | [Hne Hn]]].
    + right. eexists. now apply (StopsMissing f _ _ [] feats x []); auto.
    + destruct IH as [[vs Hvs] | [e He]].
      * left. exists (v :: vs). now constructor.
      * right. exists e. now apply (stops_at_cons f x v).
    + right. eexists. now apply (StopsInvalid f _ _ [] feats x []); auto.
Qed.

Lemma DataFrame_one_row {S E} (values : list float) (cols : list string) (s : S) :
  List.length values = List.length cols ->
  @pd_DataFrame S E values cols s = (s, [], Return (mkDataFrame cols [values])).
Proof.
  intros H. unfold pd_DataFrame. rewrite H, Nat.eqb_refl. reflexivity.
Qed.

Lemma prepare_input_numeric (f : form) (g : globals) (vs : list float) :
  Forall2 (numeric f) (g_FEATURES g) vs ->
  prepare_input f g = (g, [], Return (mkDataFrame (g_FEATURES g) [vs])).
Proof.
  intros H. unfold prepare_input, bind, read.
  rewrite (loop_numeric f _ vs [] g H). simpl.
  rewrite DataFrame_one_row; [reflexivity|].
  symmetry. eapply Forall2_length; eauto.
Qed.

Lemma prepare_input_stops (f : form) (g : globals) (e : exn) :
  stops_at f (g_FEATURES g) e ->
  prepare_input f g = (g, [], Raise e).
Proof.
  intros H. unfold prepare_input, bind, read.
  now rewrite (loop_stops f _ e [] g H).
Qed.

(** The builder never changes the namespace and never calls the
    environment; it returns the one-row frame of the values read, or
    raises the error of the first field that is blank or rejected. *)
Lemma prepare_input_cases (f : form) (g : globals) :
  (exists vs, Forall2 (numeric f) (g_FEATURES g) vs
              /\ prepare_input f g = (g, [], Return (mkDataFrame (g_FEATURES g) [vs])))
  \/ (exists e, stops_at f (g_FEATURES g) e /\ prepare_input f g = (g, [], Raise e)).
Proof.
  destruct (loop_cases f (g_FEATURES g)) as [[vs H] | [e H]].
  - left. exists vs. split; [assumption | now apply prepare_input_numeric].
  - right. exists e. split; [assumption | now apply prepare_input_stops].
Qed.

End InputFacts.

(* ================================================================== *)
(** ** Facts about the prediction view *)

Module ViewFacts.

Import Py App Terms InputFacts.

(** What [prepare_input] raises is caught by [except Exception]. *)
Lemma stops_at_error (f : form) (feats : list string) (e : exn) :
  stops_at f feats e -> isinstance e ExceptException = true.
Proof.
  intros [pre post x vs _ _ _ -> | pre post x vs _ _ _ _ ->]; reflexivity.
Qed.

Section Predict.

Variables (g : globals).

Lemma predict_absent (rf : outcome form) :
  g_model g = None ->
  predict rf g
  = (g, [], Return (mkResponse 500
                      (failure_json ("Model not loaded: "
                                     ++ or_unknown (g_model_load_error g))))).
Proof.
  intros H. unfold predict, bind, read. rewrite H. reflexivity.
Qed.

Variable m : Model.
Hypothesis Hm : g_model g = Some m.

Lemma predict_unreadable (e : exn) :
  isinstance e ExceptException = true ->
  predict (Raise e) g = (g, [], Return (mkResponse 400 (failure_json (exn_str e)))).
Proof.
  intros He. unfold predict, bind, read. rewrite Hm.
  unfold try_, lift. rewrite He. reflexivity.
Qed.

Lemma predict_read_interrupted (e : exn) :
  isinstance e ExceptException = false ->
  predict (Raise e) g = (g, [], Raise e).
Proof.
  intros He. unfold predict, bind, read. rewrite Hm.
  unfold try_, lift. rewrite He. reflexivity.
Qed.

Variable f : form.

Lemma predict_rejected (e : exn) :
  prepare_input f g = (g, [], Raise e) ->
  isinstance e ExceptException = true ->
  predict (Return f) g = (g, [], Return (mkResponse 400 (failure_json (exn_str e)))).
Proof.
  intros H He. unfold predict, bind, read. rewrite Hm.
  unfold try_ at 1. unfold lift. rewrite H, He. reflexivity.
Qed.

Variable df : DataFrame.
Hypothesis Hdf : prepare_input f g = (g, [], Return df).

(** After a valid form the answer is decided by the three steps of
    the model and by the frame they leave. *)
Lemma predict_invoked :
  predict (Return f) g
  = match invoke m df with
    | (_, Raise e) =>
        if isinstance e ExceptException
        then (g, [EvPredict df],
              Return (mkResponse 500
                        (failure_json ("Model prediction failed: " ++ exn_str e))))
        else (g, [EvPredict df], Raise e)
    | (df', Return v) =>
        match to_dict_records df' with
        | [] => (g, [EvPredict df], Raise (Exn IndexError "list index out of range"))
        | record :: _ =>
            (g, [EvPredict df], Return (mkResponse 200 (success_json v record)))
        end
    end.
Proof.
  unfold predict, bind, read. rewrite Hm.
  unfold try_ at 1. unfold lift at 1. rewrite Hdf.
  unfold try_, bind, call, lift, landed, invoke.
  destruct (model_predict m df) as [df1 [p|e1]]; cbn.
  - destruct (pred_getitem0 p df1) as [df2 [x|e2]]; cbn.
    + destruct (elem_float x df2) as [df3 [v|e3]]; cbn.
      * destruct (to_dict_records df3) as [|record rest]; reflexivity.
      * destruct e3 as [[] msg]; reflexivity.
    + destruct e2 as [[] msg]; reflexivity.
  - destruct e1 as [[] msg]; reflexivity.
Qed.


Lemma predict_interrupted (df' : DataFrame) (e : exn) :
  invoke m df = (df', Raise e) ->
  isinstance e ExceptException = false ->
  predict (Return f) g = (g, [EvPredict df], Raise e).
Proof. intros Hi He. now rewrite predict_invoked, Hi, He. Qed.


Lemma predict_echo_fails (df' : DataFrame) (v : float) :
  invoke m df = (df', Return v) ->
  to_dict_records df' = [] ->
  predict (Return f) g
  = (g, [EvPredict df], Raise (Exn IndexError "list index out of range")).
Proof. intros Hi Hr. now rewrite predict_invoked, Hi, Hr. Qed.

(** One call is recorded, whatever the model does. *)
Lemma predict_invoked_trace : snd (fst (predict (Return f) g)) = [EvPredict df].
Proof.
  rewrite predict_invoked.
  destruct (invoke m df) as [df' [v|e]].
  - destruct (to_dict_records df'); reflexivity.
  - destruct (isinstance e ExceptException); reflexivity.
Qed.

Lemma predict_invoked_namespace : fst (fst (predict (Return f) g)) = g.
Proof.
  rewrite predict_invoked.
  destruct (invoke m df) as [df' [v|e]].
  - destruct (to_dict_records df'); reflexivity.
  - destruct (isinstance e ExceptException); reflexivity.
Qed.

End Predict.

(** No view changes the namespace. *)
Lemma predict_namespace (rf : outcome form) (g : globals) : fst (fst (predict rf g)) = g.
Proof.
  destruct (g_model g) as [m|] eqn:Hm; [|now rewrite (predict_absent g rf Hm)].
  destruct rf as [f|e].
  - destruct (prepare_input_cases f g) as [[vs [_ H]] | [e [Hs H]]].
    + exact (predict_invoked_namespace g m Hm f _ H).
    + now rewrite (predict_rejected g m Hm f e H (stops_at_error _ _ _ Hs)).
  - destruct (isinstance e ExceptException) eqn:He.
    + now rewrite (predict_unreadable g m Hm e He).
    + now rewrite (predict_read_interrupted g m Hm e He).
Qed.

Lemma index_namespace (render_template : renderer) (g : globals) :
  fst (fst (index render_template g)) = g.
Proof.
  unfold index, bind, read, lift.
  destruct (render_template _ _ _); reflexivity.
Qed.

Lemma handle_namespace (r : request) (g : globals) : fst (fst (handle r g)) = g.
Proof.
  destruct r as [render_template|rf]; [apply index_namespace | apply predict_namespace].
Qed.

Lemma serve_namespace (rs : list request) (g : globals) : fst (serve g rs) = g.
Proof.
  revert g. induction rs as [|r rs IH]; intros g; simpl; [reflexivity|].
  pose proof (handle_namespace r g) as Hr.
  destruct (handle r g) as [[g1 t] o]. simpl in Hr. subst g1.
  specialize (IH g). destruct (serve g rs) as [g2 out]. exact IH.
Qed.

(** The loop reads a form only through the values of its fields. *)
Lemma field_agree (f1 f2 : form) (feat : string) :
  form_get f1 feat "" = form_get f2 feat "" ->
  prepare_input_field f1 feat = prepare_input_field f2 feat.
Proof.
  intros H. unfold prepare_input_field. rewrite H. reflexivity.
Qed.

Lemma loop_agree (f1 f2 : form) (feats : list string) (acc : list float) (g : globals) :
  agree_on feats f1 f2 ->
  for_ feats acc (prepare_input_field f1) g
  = for_ feats acc (prepare_input_field f2) g.
Proof.
  revert acc g. induction feats as [|x feats IH]; intros acc g H; simpl.
  - reflexivity.
  - unfold bind. rewrite (field_agree f1 f2 x) by (apply H; now left).
    destruct (prepare_input_field f2 x acc g) as [[g1 t1] [a|e]]; [|reflexivity].
    rewrite IH; [reflexivity|]. intros y Hy. apply H. now right.
Qed.

Lemma prepare_input_agree (f1 f2 : form) (g : globals) :
  agree_on (g_FEATURES g) f1 f2 -> prepare_input f1 g = prepare_input f2 g.
Proof.
  intros H. unfold prepare_input, bind, read.
  now rewrite (loop_agree f1 f2 _ [] g H).
Qed.

(** [predict] uses a form that was read only through [prepare_input]. *)
Lemma predict_same_input (f1 f2 : form) (g : globals) :
  prepare_input f1 g = prepare_input f2 g ->
  predict (Return f1) g = predict (Return f2) g.
Proof.
  intros H. unfold predict, bind, read.
  destruct (g_model g) as [m|]; [|reflexivity].
  unfold try_ at 1 3. unfold lift at 1 4. now rewrite H.
Qed.

Lemma predict_agree (f1 f2 : form) (g : globals) :
  agree_on (g_FEATURES g) f1 f2 -> predict (Return f1) g = predict (Return f2) g.
Proof.
  intros H. apply predict_same_input. now apply prepare_input_agree.
Qed.

Lemma form_get_other (pre post : form) (k v feat : string) :
  k <> feat ->
  form_get (pre ++ (k, v) :: post)%list feat "" = form_get (pre ++ post)%list feat "".
Proof.
  intros Hk. induction pre as [|[k' v'] pre IH]; simpl.
  - apply String.eqb_neq in Hk. now rewrite Hk.
  - now rewrite IH.
Qed.

Lemma numeric_not_blank (f : form) (feats : list string) (vs : list float) (x : string) :
  Forall2 (numeric f) feats vs -> In x feats -> exists v, numeric f x v.
Proof.
  induction 1 as [|y v feats vs Hy _ IH]; intros Hin; [destruct Hin|].
  destruct Hin as [-> | Hin]; [now exists v | now apply IH].
Qed.

(** When some field is not numeric the builder reports the first one. *)
Lemma first_failure (f : form) (g : globals) (x : string) :
  In x (g_FEATURES g) ->
  (forall v, ~ numeric f x v) ->
  first_failure_reported f g.
Proof.
  intros Hin Hx.
  destruct (prepare_input_cases f g) as [[vs [Hvs _]] | [e [Hs H]]].
  - destruct (numeric_not_blank f _ _ x Hvs Hin) as [v Hv]. now destruct (Hx v).
  - destruct Hs as [pre post y vs Hg Hpre Hy -> | pre post y vs Hg Hpre Hne Hy ->];
      exists pre, y, post, vs; (split; [exact Hg|]); (split; [exact Hpre|]).
    + left. now split.
    + right. now repeat split.
Qed.

End ViewFacts.

(* ================================================================== *)
(** ** Facts about the loader *)

Module LoaderFacts.

Import Py App Terms.

Section Loader.

Context {S : Type}.
Variables (env : loaders) (path : string) (s : S).

Lemma joblib_error (e : exn) :
  joblib_load env path = Raise e -> isinstance e ExceptException = true.
Proof. intros H. apply (load_failure_is_error env path). now left. Qed.

Lemma pickle_error (e : exn) :
  pickle_load_latin1 env path = Raise e -> isinstance e ExceptException = true.
Proof. intros H. apply (load_failure_is_error env path). right. now left. Qed.

Lemma dill_error (e : exn) :
  dill_load env path = Raise e -> isinstance e ExceptException = true.
Proof. intros H. apply (load_failure_is_error env path). right. now right. Qed.

Lemma load_first (m : option Model) :
  joblib_load env path = Return m ->
  load_model env path s = (s, [EvLoad Joblib path], Return m).
Proof.
  intros H. unfold load_model, try_, try_strategy, call. rewrite H. reflexivity.
Qed.

Lemma load_second (e1 : exn) (m : option Model) :
  joblib_load env path = Raise e1 ->
  pickle_load_latin1 env path = Return m ->
  load_model env path s
  = (s, [EvLoad Joblib path; EvLoad PickleLatin1 path], Return m).
Proof.
  intros H1 H2. unfold load_model, try_, try_strategy, call.
  rewrite H1, H2, (joblib_error e1 H1). reflexivity.
Qed.

Lemma load_third (e1 e2 : exn) (m : option Model) :
  joblib_load env path = Raise e1 ->
  pickle_load_latin1 env path = Raise e2 ->
  dill_load env path = Return m ->
  load_model env path s = (s, all_attempts path, Return m).
Proof.
  intros H1 H2 H3. unfold load_model, try_, try_strategy, call.
  rewrite H1, H2, H3, (joblib_error e1 H1), (pickle_error e2 H2), ?(dill_error e3 H3).
  reflexivity.
Qed.

Lemma load_none (e1 e2 e3 : exn) :
  joblib_load env path = Raise e1 ->
  pickle_load_latin1 env path = Raise e2 ->
  dill_load env path = Raise e3 ->
  load_model env path s
  = (s, all_attempts path,
     Raise (Exn RuntimeError (aggregated_message e1 e2 e3))).
Proof.
  intros H1 H2 H3. unfold load_model, try_, try_strategy, call.
  rewrite H1, H2, H3, (joblib_error e1 H1), (pickle_error e2 H2), ?(dill_error e3 H3).
  reflexivity.
Qed.

End Loader.

(** [load_model] returns after at most three attempts or raises a
    [RuntimeError]. *)
Lemma load_model_cases {S} (env : loaders) (path : string) (s : S) :
  exists t r, load_model env path s = (s, t, r) /\ catchable r.
Proof.
  destruct (joblib_load env path) as [m|e1] eqn:H1.
  { do 2 eexists. split; [apply load_first; eassumption | exact I]. }
  destruct (pickle_load_latin1 env path) as [m|e2] eqn:H2.
  { do 2 eexists. split; [apply (load_second env path s e1); eassumption | exact I]. }
  destruct (dill_load env path) as [m|e3] eqn:H3.
  { do 2 eexists. split; [apply (load_third env path s e1 e2); eassumption | exact I]. }
  do 2 eexists. split; [apply (load_none env path s e1 e2 e3); eassumption | reflexivity].
Qed.

Lemma startup_loaded (env : loaders) (t : list event) (m : option Model) :
  load_model env MODEL_PATH tt = (tt, t, Return m) ->
  startup env tt = (tt, t, Return (mkGlobals FEATURES m None)).
Proof.
  intros H. unfold startup, try_. rewrite H. simpl. now rewrite app_nil_r.
Qed.

Lemma startup_failed (env : loaders) (t : list event) (e : exn) :
  load_model env MODEL_PATH tt = (tt, t, Raise e) ->
  isinstance e ExceptException = true ->
  startup env tt = (tt, t, Return (mkGlobals FEATURES None (Some (exn_str e)))).
Proof.
  intros H He. unfold startup, try_. rewrite H, He. simpl. now rewrite app_nil_r.
Qed.

(** The message, piece by piece. *)
Lemma aggregated_message_pieces (e1 e2 e3 : exn) :
  aggregated_message e1 e2 e3
  = load_failure_prefix
    ++ "[('joblib', " ++ PyStr.repr (exn_str e1)
    ++ "), ('pickle_latin1', " ++ PyStr.repr (exn_str e2)
    ++ "), ('dill', " ++ PyStr.repr (exn_str e3) ++ ")]".
Proof.
  unfold aggregated_message, repr_list, repr_items, repr_pair. cbn [fst snd].
  change (PyStr.repr "joblib") with "'joblib'".
  change (PyStr.repr "pickle_latin1") with "'pickle_latin1'".
  change (PyStr.repr "dill") with "'dill'".
  f_equal.
  repeat progress (cbn [append]; rewrite ?PyStrFacts.append_assoc).
  reflexivity.
Qed.

End LoaderFacts.

(* ================================================================== *)
(** ** Further facts: trimming, repeated keys, the calls of [predict] *)

Module TrimFacts.

Import PyStr Terms.

Lemma lstrip_all_space (a : string) : all_space a = true -> lstrip a = "".
Proof.
  induction a as [|c a IH]; simpl; [reflexivity|].
  intros H. apply andb_true_iff in H as [Hc Ha]. rewrite Hc. now apply IH.
Qed.

Lemma rstrip_all_space (b : string) : all_space b = true -> rstrip b = "".
Proof.
  induction b as [|c b IH]; simpl; [reflexivity|].
  intros H. apply andb_true_iff in H as [Hc Hb]. now rewrite (IH Hb), Hc.
Qed.

Lemma lstrip_space_app (a s : string) : all_space a = true -> lstrip (a ++ s) = lstrip s.
Proof.
  induction a as [|c a IH]; simpl; [reflexivity|].
  intros H. apply andb_true_iff in H as [Hc Ha]. rewrite Hc. now apply IH.
Qed.

Lemma rstrip_app_space (s b : string) : all_space b = true -> rstrip (s ++ b) = rstrip s.
Proof.
  intros Hb. induction s as [|c s IH]; simpl.
  - now apply rstrip_all_space.
  - now rewrite IH.
Qed.

Lemma lstrip_app (v b : string) :
  lstrip (v ++ b) = match lstrip v with EmptyString => lstrip b | r => r ++ b end.
Proof.
  induction v as [|c v IH]; simpl; [reflexivity|].
  destruct (isspace c); [exact IH | reflexivity].
Qed.

(** White space around a value is not part of it. *)
Lemma strip_padding (a v b : string) :
  all_space a = true -> all_space b = true -> strip (a ++ v ++ b) = strip v.
Proof.
  intros Ha Hb. unfold strip. rewrite (lstrip_space_app a _ Ha), lstrip_app.
  destruct (lstrip v) as [|c r] eqn:E.
  - now rewrite (lstrip_all_space b Hb).
  - now rewrite rstrip_app_space.
Qed.

Lemma strip_all_space (w : string) : all_space w = true -> strip w = "".
Proof. intros H. unfold strip. now rewrite (lstrip_all_space w H). Qed.

Lemma lstrip_split (s : string) : exists a, s = a ++ lstrip s /\ all_space a = true.
Proof.
  induction s as [|c s [a [Hs Ha]]]; [now exists ""|]. simpl.
  destruct (isspace c) eqn:Hc.
  - exists (String c a). simpl. rewrite Hc, Ha. split; [now rewrite <- Hs | reflexivity].
  - now exists "".
Qed.

Lemma rstrip_split (s : string) : exists b, s = rstrip s ++ b /\ all_space b = true.
Proof.
  induction s as [|c s [b [Hs Hb]]]; [now exists ""|]. simpl.
  destruct (rstrip s) as [|d r] eqn:Hr.
  - simpl in Hs. subst b. destruct (isspace c) eqn:Hc.
    + exists (String c s). simpl. now rewrite Hc, Hb.
    + now exists s.
  - exists b. split; [simpl; f_equal; exact Hs | exact Hb].
Qed.

Lemma lstrip_starts_clean (s : string) : starts_clean (lstrip s) = true.
Proof.
  induction s as [|c s IH]; [reflexivity|]. simpl.
  destruct (isspace c) eqn:Hc; [exact IH | simpl; now rewrite Hc].
Qed.

Lemma rstrip_ends_clean (s : string) : ends_clean (rstrip s) = true.
Proof.
  induction s as [|c s IH]; [reflexivity|]. simpl.
  destruct (rstrip s) as [|d r] eqn:Hr.
  - destruct (isspace c) eqn:Hc; [reflexivity | simpl; now rewrite Hc].
  - exact IH.
Qed.

Lemma rstrip_starts_clean (s : string) :
  starts_clean s = true -> starts_clean (rstrip s) = true.
Proof.
  destruct s as [|c s]; [reflexivity|]. simpl. intros Hc.
  destruct (rstrip s); [|exact Hc].
  destruct (isspace c) eqn:E; [reflexivity | simpl; now rewrite E].
Qed.

Lemma lstrip_clean (s : string) : starts_clean s = true -> lstrip s = s.
Proof.
  destruct s as [|c s]; [reflexivity|]. simpl. intros Hc.
  apply negb_true_iff in Hc. now rewrite Hc.
Qed.

Lemma rstrip_clean (s : string) : ends_clean s = true -> rstrip s = s.
Proof.
  induction s as [|c s IH]; [reflexivity|]. intros H.
  destruct s as [|d s].
  - simpl in *. apply negb_true_iff in H. now rewrite H.
  - change (ends_clean (String d s) = true) in H.
    change (rstrip (String c (String d s)))
      with (match rstrip (String d s) with
            | EmptyString => if isspace c then EmptyString else String c EmptyString
            | r => String c r
            end).
    now rewrite (IH H).
Qed.

(** [strip] removes the white space at the two ends, and nothing else. *)
Lemma strip_trims (s : string) : trims_to s (strip s).
Proof.
  destruct (lstrip_split s) as [a [Hs Ha]].
  destruct (rstrip_split (lstrip s)) as [b [Hl Hb]].
  exists a, b. unfold strip. split; [now rewrite <- Hl|].
  repeat split; try assumption.
  - apply rstrip_starts_clean, lstrip_starts_clean.
  - apply rstrip_ends_clean.
Qed.

Lemma trims_to_strip (s core : string) : trims_to s core -> strip s = core.
Proof.
  intros [a [b [-> [Ha [Hb [Hs He]]]]]].
  rewrite (strip_padding a core b Ha Hb). unfold strip.
  now rewrite (lstrip_clean core Hs), (rstrip_clean core He).
Qed.

Lemma isspace_code_points (c : ascii) :
  isspace c = true <-> In (code c) strip_code_points.
Proof.
  unfold isspace, strip_code_points. simpl In. split.
  - intros H.
    repeat (apply orb_true_iff in H as [H | H]);
      try (apply andb_true_iff in H as [H1 H2];
           apply Z.leb_le in H1; apply Z.leb_le in H2);
      try apply Z.eqb_eq in H; lia.
  - intros H.
    repeat (destruct H as [<- | H]); try reflexivity. contradiction.
Qed.

End TrimFacts.

Module FormFacts.

Import Py App Terms InputFacts.

(** The loop reads a form only through the trimmed values of its fields. *)
Lemma field_agree_raw (f1 f2 : form) (feat : string) :
  raw_value f1 feat = raw_value f2 feat ->
  prepare_input_field f1 feat = prepare_input_field f2 feat.
Proof.
  unfold raw_value, prepare_input_field. intros H. now rewrite H.
Qed.

Lemma loop_agree_raw (f1 f2 : form) (feats : list string) (acc : list float) (g : globals) :
  (forall feat, In feat feats -> raw_value f1 feat = raw_value f2 feat) ->
  for_ feats acc (prepare_input_field f1) g
  = for_ feats acc (prepare_input_field f2) g.
Proof.
  revert acc g. induction feats as [|x feats IH]; intros acc g H; simpl.
  - reflexivity.
  - unfold bind. rewrite (field_agree_raw f1 f2 x) by (apply H; now left).
    destruct (prepare_input_field f2 x acc g) as [[g1 t1] [a|e]]; [|reflexivity].
    rewrite IH; [reflexivity|]. intros y Hy. apply H. now right.
Qed.

Lemma prepare_input_agree_raw (f1 f2 : form) (g : globals) :
  (forall feat, In feat (g_FEATURES g) -> raw_value f1 feat = raw_value f2 feat) ->
  prepare_input f1 g = prepare_input f2 g.
Proof.
  intros H. unfold prepare_input, bind, read.
  now rewrite (loop_agree_raw f1 f2 _ [] g H).
Qed.

Lemma predict_agree_raw (f1 f2 : form) (g : globals) :
  (forall feat, In feat (g_FEATURES g) -> raw_value f1 feat = raw_value f2 feat) ->
  predict (Return f1) g = predict (Return f2) g.
Proof.
  intros H. apply ViewFacts.predict_same_input. now apply prepare_input_agree_raw.
Qed.

(** Replacing the value of one pair by a value with the same trimmed text
    changes the trimmed value of no field. *)
Lemma raw_value_same_trim (pre post : form) (k v w feat : string) :
  PyStr.strip v = PyStr.strip w ->
  raw_value (pre ++ (k, v) :: post)%list feat
  = raw_value (pre ++ (k, w) :: post)%list feat.
Proof.
  intros H. unfold raw_value. induction pre as [|[k' v'] pre IH]; simpl.
  - destruct (String.eqb k feat); [exact H | reflexivity].
  - destruct (String.eqb k' feat); [reflexivity | exact IH].
Qed.

(** What is submitted after a key's first value is not read for it. *)
Lemma form_get_first (pre rest : form) (k d : string) :
  In k (keys pre) -> form_get (pre ++ rest)%list k d = form_get pre k d.
Proof.
  induction pre as [|[k' v'] pre IH]; simpl; [intros []|].
  intros [-> | H].
  - now rewrite String.eqb_refl.
  - destruct (String.eqb k' k); [reflexivity | now apply IH].
Qed.

Lemma form_get_absent (f : form) (k d : string) :
  ~ In k (keys f) -> form_get f k d = d.
Proof.
  induction f as [|[k' v'] f IH]; simpl; [reflexivity|].
  intros H. destruct (String.eqb_spec k' k) as [-> | _].
  - exfalso. apply H. now left.
  - apply IH. intros Hin. apply H. now right.
Qed.

Lemma form_get_app (pre post : form) (k d : string) :
  form_get (pre ++ post)%list k d = form_get pre k (form_get post k d).
Proof.
  induction pre as [|[k' v'] pre IH]; simpl; [reflexivity|].
  destruct (String.eqb k' k); [reflexivity | exact IH].
Qed.

End FormFacts.

(* ================================================================== *)
(** ** The claims *)

Import Py App Terms.

(** C1.  A form that gives each of the six schema fields a value that is
    not blank once trimmed and that [float] accepts makes [prepare_input]
    return, without touching the namespace or the environment, the frame
    whose columns are the six schema fields in schema order and whose one
    row holds the floats read, in that order; as a record it pairs each
    field with its float. *)
Theorem prepare_input_valid (f : form) (g : globals) (vs : list float) :
  g_FEATURES g = FEATURES ->
  Forall2 (numeric f) FEATURES vs ->
  prepare_input f g = (g, [], Return (mkDataFrame FEATURES [vs]))
  /\ List.length vs = 6%nat
  /\ to_dict_records (mkDataFrame FEATURES [vs]) = [combine FEATURES vs].
Proof.
  intros Hg Hvs. split; [|split].
  - rewrite <- Hg in Hvs |- *. now apply InputFacts.prepare_input_numeric.
  - apply Forall2_length in Hvs. now rewrite <- Hvs.
  - unfold FEATURES in Hvs.
    repeat match goal with
           | H : Forall2 _ (_ :: _) _ |- _ => inversion H; subst; clear H
           | H : Forall2 _ [] _ |- _ => inversion H; subst; clear H
           end.
    reflexivity.
Qed.

Lemma canonical_form_numeric : Forall2 (numeric canonical_form) FEATURES canonical_values.
Proof.
  repeat constructor; try (vm_compute; discriminate); vm_compute; reflexivity.
Defined.

Lemma prepare_input_valid_witness :
  prepare_input canonical_form stub_globals
  = (stub_globals, [], Return (mkDataFrame FEATURES [canonical_values]))
  /\ List.length canonical_values = 6%nat
  /\ to_dict_records (mkDataFrame FEATURES [canonical_values])
     = [combine FEATURES canonical_values].
Proof.
  apply (prepare_input_valid canonical_form stub_globals canonical_values).
  - reflexivity.
  - exact canonical_form_numeric.
Defined.




(** C3.  [load_model] attempts joblib, then pickle with latin1, then
    dill, and stops at the first attempt that returns: it returns that
    object, and an error raised by an earlier attempt goes no further.
    When the three attempts raise, [load_model] raises one [RuntimeError];
    the start-up code then leaves the model absent and keeps the message,
    which names joblib, pickle, latin1 and dill and holds [repr] of each
    attempt's message, hence the message itself when it has no quote,
    backslash or unprintable character. *)
Theorem load_model_first_success (env : loaders) (path : string) :
  (forall m,
      joblib_load env path = Return m ->
      load_model env path tt = (tt, [EvLoad Joblib path], Return m))
  /\ (forall e1 m,
         joblib_load env path = Raise e1 ->
         pickle_load_latin1 env path = Return m ->
         load_model env path tt
         = (tt, [EvLoad Joblib path; EvLoad PickleLatin1 path], Return m))
  /\ (forall e1 e2 m,
         joblib_load env path = Raise e1 ->
         pickle_load_latin1 env path = Raise e2 ->
         dill_load env path = Return m ->
         load_model env path tt = (tt, all_attempts path, Return m))
  /\ (forall e1 e2 e3,
         joblib_load env path = Raise e1 ->
         pickle_load_latin1 env path = Raise e2 ->
         dill_load env path = Raise e3 ->
         let msg := aggregated_message e1 e2 e3 in
         load_model env path tt
         = (tt, all_attempts path, Raise (Exn RuntimeError msg))
         /\ (path = MODEL_PATH ->
             startup env tt
             = (tt, all_attempts path, Return (mkGlobals FEATURES None (Some msg))))
         /\ Forall (fun name => PyStr.contains name msg = true)
              ["joblib"; "pickle"; "latin1"; "dill"]
         /\ Forall (fun e => PyStr.contains (PyStr.repr (exn_str e)) msg = true
                             /\ (PyStr.plain (exn_str e) = true ->
                                 PyStr.contains (exn_str e) msg = true))
              [e1; e2; e3]).
Proof.
  split; [|split; [|split]].
  - intros m H. now apply LoaderFacts.load_first.
  - intros e1 m H1 H2. now apply (LoaderFacts.load_second env path tt e1).
  - intros e1 e2 m H1 H2 H3. now apply (LoaderFacts.load_third env path tt e1 e2).
  - intros e1 e2 e3 H1 H2 H3 msg.
    pose proof (LoaderFacts.load_none env path tt e1 e2 e3 H1 H2 H3) as Hl.
    split; [exact Hl|]. split.
    { intros ->. exact (LoaderFacts.startup_failed env _ _ Hl eq_refl). }
    split.
    { repeat (apply Forall_cons;
                [apply PyStrFacts.contains_app_l; vm_compute; reflexivity |]).
      apply Forall_nil. }
    assert (Hr : Forall (fun e => PyStr.contains (PyStr.repr (exn_str e)) msg = true)
                   [e1; e2; e3]).
    { subst msg. rewrite LoaderFacts.aggregated_message_pieces.
      repeat (apply Forall_cons; [PyStrFacts.find_piece |]). apply Forall_nil. }
    revert Hr. apply Forall_impl. intros e He. split; [exact He|].
    intros Hp. apply (PyStrFacts.contains_trans _ (PyStr.repr (exn_str e))); [|exact He].
    now apply PyStrFacts.contains_repr_plain.
Qed.

Lemma load_model_first_success_witness :
  load_model only_dill_loads MODEL_PATH tt
  = (tt, all_attempts MODEL_PATH, Return (Some stub_model))
  /\ startup nothing_loads tt
     = (tt, all_attempts MODEL_PATH, Return unavailable_globals).
Proof.
  split.
  - apply (proj1 (proj2 (proj2 (load_model_first_success only_dill_loads MODEL_PATH)))
             (import_error "joblib") (Exn OtherError "invalid load key, 'x'."));
      reflexivity.
  - apply (proj2 (proj2 (proj2 (load_model_first_success nothing_loads MODEL_PATH)))
             (import_error "joblib") (Exn OtherError "invalid load key, 'x'.")
             (import_error "dill"));
      reflexivity.
Defined.

(** C4.  When the model is absent, [predict] answers every request with
    status 500 and the JSON object whose [success] is false and whose
    [error] is [Model not loaded: ] followed by the stored load error
    ([unknown] when none is stored or it is empty), so the message
    contains the stored text.  The answer does not depend on the request:
    [request.form] is not evaluated, nothing is validated and no call is
    made to the model or to anything else. *)
Theorem predict_model_absent (rf : outcome form) (g : globals) :
  g_model g = None ->
  let message := "Model not loaded: " ++ or_unknown (g_model_load_error g) in
  predict rf g
  = (g, [],
     Return (mkResponse 500
               (Json (JObject [("success", JBool false);
                               ("error", JString message)]))))
  /\ (forall err, g_model_load_error g = Some err ->
                  PyStr.contains err message = true
                  /\ (err <> "" -> message = "Model not loaded: " ++ err)).
Proof.
  intros Hm message. split; [exact (ViewFacts.predict_absent g rf Hm)|].
  intros err He. subst message. rewrite He.
  destruct err as [|c err].
  - split; [apply PyStrFacts.contains_empty | congruence].
  - split; [apply PyStrFacts.contains_suffix | reflexivity].
Qed.

Lemma predict_model_absent_witness :
  let message := "Model not loaded: " ++ or_unknown (g_model_load_error unavailable_globals) in
  predict (Return canonical_form) unavailable_globals
  = (unavailable_globals, [],
     Return (mkResponse 500
               (Json (JObject [("success", JBool false);
                               ("error", JString message)]))))
  /\ (forall err, g_model_load_error unavailable_globals = Some err ->
                  PyStr.contains err message = true
                  /\ (err <> "" -> message = "Model not loaded: " ++ err)).
Proof.
  apply (predict_model_absent (Return canonical_form) unavailable_globals). reflexivity.
Defined.

(** C5, as the code has it.  A field that is blank once trimmed always
    makes [prepare_input] raise, and the error is that of the first
    schema field, in schema order, that is blank or rejected by [float]:
    [Missing value for Y] when that field Y is blank,
    [Invalid numeric value for Y: 'raw'] when it is rejected.  So when
    every schema field before the blank field X is numeric, the error is
    [Missing value for X], and X is the first blank field in schema
    order. *)
Theorem missing_value_error (f : form) (g : globals) :
  g_FEATURES g = FEATURES ->
  (forall x, In x FEATURES -> raw_value f x = "" -> first_failure_reported f g)
  /\ (forall pre x post vs,
         FEATURES = (pre ++ x :: post)%list ->
         Forall2 (numeric f) pre vs ->
         raw_value f x = "" ->
         prepare_input f g
         = (g, [], Raise (Exn ValueError ("Missing value for " ++ x)))
         /\ forall y, In y pre -> raw_value f y <> "").
Proof.
  intros Hg. split.
  - intros x Hin Hx. apply (ViewFacts.first_failure f g x).
    + now rewrite Hg.
    + intros v [Hne _]. contradiction.
  - intros pre x post vs Hsplit Hpre Hx. split.
    + apply InputFacts.prepare_input_stops. rewrite Hg.
      now apply (StopsMissing f _ _ pre post x vs).
    + intros y Hy. destruct (ViewFacts.numeric_not_blank f _ _ y Hpre Hy) as [v [Hne _]].
      exact Hne.
Qed.

Lemma missing_value_error_witness :
  prepare_input [("Number_of_Customers_Per_Day", " 100 ")] stub_globals
  = (stub_globals, [],
     Raise (Exn ValueError "Missing value for Average_Order_Value"))
  /\ first_failure_reported [("Number_of_Customers_Per_Day", " 100 ")] stub_globals.
Proof.
  split.
  - apply (proj2 (missing_value_error [("Number_of_Customers_Per_Day", " 100 ")]
                    stub_globals eq_refl)
             ["Number_of_Customers_Per_Day"] "Average_Order_Value"
             ["Operating_Hours_Per_Day"; "Number_of_Employees";
              "Marketing_Spend_Per_Day"; "Location_Foot_Traffic"]
             [PyFloat.of_Z 100]).
    + reflexivity.
    + repeat constructor; try (vm_compute; discriminate); vm_compute; reflexivity.
    + reflexivity.
  - apply (proj1 (missing_value_error [("Number_of_Customers_Per_Day", " 100 ")]
                    stub_globals eq_refl) "Location_Foot_Traffic").
    + vm_compute. tauto.
    + reflexivity.
Defined.

(** C5 as stated fails: the second field is absent, and the error names
    the first field, whose value is not a number; it is no
    missing-value error. *)
Lemma missing_value_not_reported :
  In "Average_Order_Value" FEATURES
  /\ raw_value letters_then_blank "Average_Order_Value" = ""
  /\ prepare_input letters_then_blank stub_globals
     = (stub_globals, [],
        Raise (Exn ValueError
                 "Invalid numeric value for Number_of_Customers_Per_Day: 'abc'"))
  /\ (forall x, prepare_input letters_then_blank stub_globals
                <> (stub_globals, [], Raise (missing_error x))).
Proof.
  split; [right; left; reflexivity|]. split; [reflexivity|]. split; [reflexivity|].
  intros x H. vm_compute in H. discriminate H.
Qed.

(** C6, as the code has it.  A field that is not blank and that [float]
    rejects always makes [prepare_input] raise, and the error is that of
    the first schema field, in schema order, that is blank or rejected:
    [Missing value for Y] when that field Y is blank,
    [Invalid numeric value for Y: 'raw'] when it is rejected.  So when
    every schema field before the rejected field X is numeric, the error
    is [Invalid numeric value for X: 'raw'], with the trimmed value of X
    between the quotes. *)
Theorem invalid_value_error (f : form) (g : globals) :
  g_FEATURES g = FEATURES ->
  (forall x, In x FEATURES -> raw_value f x <> "" ->
             PyFloat.of_str (raw_value f x) = None ->
             first_failure_reported f g)
  /\ (forall pre x post vs,
         FEATURES = (pre ++ x :: post)%list ->
         Forall2 (numeric f) pre vs ->
         raw_value f x <> "" ->
         PyFloat.of_str (raw_value f x) = None ->
         prepare_input f g
         = (g, [],
            Raise (Exn ValueError
                     ("Invalid numeric value for " ++ x ++ ": '"
                      ++ PyStr.strip (form_get f x "") ++ "'")))).
Proof.
  intros Hg. split.
  - intros x Hin Hne Hx. apply (ViewFacts.first_failure f g x).
    + now rewrite Hg.
    + intros v [_ Hv]. congruence.
  - intros pre x post vs Hsplit Hpre Hne Hx.
    apply InputFacts.prepare_input_stops. rewrite Hg.
    now apply (StopsInvalid f _ _ pre post x vs).
Qed.

Lemma invalid_value_error_witness :
  prepare_input [("Number_of_Customers_Per_Day", "100"); ("Average_Order_Value", " abc ")]
    stub_globals
  = (stub_globals, [],
     Raise (Exn ValueError "Invalid numeric value for Average_Order_Value: 'abc'"))
  /\ first_failure_reported blank_then_letters stub_globals.
Proof.
  split.
  - apply (proj2 (invalid_value_error
                    [("Number_of_Customers_Per_Day", "100"); ("Average_Order_Value", " abc ")]
                    stub_globals eq_refl)
             ["Number_of_Customers_Per_Day"] "Average_Order_Value"
             ["Operating_Hours_Per_Day"; "Number_of_Employees";
              "Marketing_Spend_Per_Day"; "Location_Foot_Traffic"]
             [PyFloat.of_Z 100]).
    + reflexivity.
    + repeat constructor; try (vm_compute; discriminate); vm_compute; reflexivity.
    + vm_compute. discriminate.
    + reflexivity.
  - apply (proj1 (invalid_value_error blank_then_letters stub_globals eq_refl)
             "Average_Order_Value").
    + vm_compute. tauto.
    + vm_compute. discriminate.
    + reflexivity.
Defined.

(** C6 as stated fails: the second field holds letters, and the error is
    the missing-value error of the first field, which is absent. *)
Lemma invalid_value_not_reported :
  In "Average_Order_Value" FEATURES
  /\ raw_value blank_then_letters "Average_Order_Value" = "abc"
  /\ PyFloat.of_str "abc" = None
  /\ prepare_input blank_then_letters stub_globals
     = (stub_globals, [],
        Raise (Exn ValueError "Missing value for Number_of_Customers_Per_Day"))
  /\ prepare_input blank_then_letters stub_globals
     <> (stub_globals, [], Raise (invalid_error "Average_Order_Value" "abc")).
Proof.
  split; [right; left; reflexivity|]. repeat (split; [reflexivity|]).
  intros H. vm_compute in H. discriminate H.
Qed.

(** C7.  Round trip: the canonical submission, with a stub model whose
    [predict] returns a list holding 42.0, gets status 200 and the JSON
    object with [success] true, [prediction] 42.0 and, under [input], the
    six fields with the floats 100.0, 5.5, 10.0, 3.0, 20.0 and 200.0; the
    model is called once, with the frame of those values. *)
Theorem predict_round_trip :
  predict (Return canonical_form) stub_globals
  = (stub_globals,
     [EvPredict (mkDataFrame FEATURES [canonical_values])],
     Return (mkResponse 200
               (Json (JObject
                  [("success", JBool true);
                   ("prediction", JNumber (PyFloat.of_Z 42));
                   ("input",
                    JObject
                      [("Number_of_Customers_Per_Day", JNumber (PyFloat.of_Z 100));
                       ("Average_Order_Value", JNumber (PyFloat.of_Z2 11 (-1)));
                       ("Operating_Hours_Per_Day", JNumber (PyFloat.of_Z 10));
                       ("Number_of_Employees", JNumber (PyFloat.of_Z 3));
                       ("Marketing_Spend_Per_Day", JNumber (PyFloat.of_Z 20));
                       ("Location_Foot_Traffic", JNumber (PyFloat.of_Z 200))])]))))
  /\ map PyFloat.of_str ["100"; "5.5"; "10"; "3"; "20"; "200"]
     = map Some canonical_values.
Proof.
  split; vm_compute; reflexivity.
Qed.

(** C8.  The start-up code always ends with a namespace: its feature list
    is the schema; a load error is stored only with an absent model, and
    none is stored when [load_model] returned an object.  Serving any
    sequence of requests, on either route, from any namespace leaves the
    feature list, the model and the load error as they were. *)
Theorem namespace_invariant (env : loaders) :
  (exists t g0,
      startup env tt = (tt, t, Return g0)
      /\ g_FEATURES g0 = FEATURES
      /\ (g_model_load_error g0 <> None -> g_model g0 = None)
      /\ (forall t' m, load_model env MODEL_PATH tt = (tt, t', Return m) ->
                       g_model g0 = m /\ g_model_load_error g0 = None))
  /\ (forall g rs, fst (serve g rs) = g).
Proof.
  split; [|intros g rs; apply ViewFacts.serve_namespace].
  destruct (LoaderFacts.load_model_cases env MODEL_PATH tt) as [t [[m|e] [H He]]].
  - exists t, (mkGlobals FEATURES m None).
    split; [now apply LoaderFacts.startup_loaded|]. split; [reflexivity|].
    split; [intros Hn; now contradiction Hn|].
    intros t' m' H'. rewrite H in H'. injection H' as _ <-. now split.
  - exists t, (mkGlobals FEATURES None (Some (exn_str e))).
    split; [now apply LoaderFacts.startup_failed|]. split; [reflexivity|].
    split; [reflexivity|].
    intros t' m' H'. rewrite H in H'. discriminate H'.
Qed.

(** C9.  [prepare_input] returns exactly when, for every schema field,
    the submitted value without the white space at its two ends is not
    empty and is accepted by [float]; the white space is that of
    [str.strip()]: tab, line feed, vertical tab, form feed, carriage
    return, the four separators 28 to 31, the blank, and the code points
    133 and 160 (below 256).  [float] accepts [nan], [inf], [-infinity]
    and [1e5], so the frame handed to the model may hold values that are
    not finite. *)
Theorem prepare_input_succeeds_iff (f : form) (g : globals) :
  ((exists df, prepare_input f g = (g, [], Return df))
   <-> Forall (fun feat =>
                 exists core,
                   trims_to (form_get f feat "") core
                   /\ core <> ""
                   /\ PyFloat.of_str core <> None)
         (g_FEATURES g))
  /\ (forall c, PyStr.isspace c = true <-> In (PyStr.code c) strip_code_points)
  /\ (forall s, trims_to s (PyStr.strip s))
  /\ map PyFloat.of_str ["nan"; "inf"; "-infinity"; "1e5"]
     = [Some PyFloat.nan; Some (PyFloat.inf false); Some (PyFloat.inf true);
        Some (PyFloat.of_Z 100000)]
  /\ predict (Return nonfinite_form) stub_globals
     = (stub_globals,
        [EvPredict (mkDataFrame FEATURES [nonfinite_values])],
        Return (mkResponse 200
                  (Json (JObject
                     [("success", JBool true);
                      ("prediction", JNumber (PyFloat.of_Z 42));
                      ("input",
                       JObject
                         [("Number_of_Customers_Per_Day", JNumber PyFloat.nan);
                          ("Average_Order_Value", JNumber (PyFloat.inf false));
                          ("Operating_Hours_Per_Day", JNumber (PyFloat.inf true));
                          ("Number_of_Employees", JNumber (PyFloat.of_Z 100000));
                          ("Marketing_Spend_Per_Day", JNumber (S754_zero true));
                          ("Location_Foot_Traffic", JNumber (PyFloat.of_Z2 2001 (-1)))])]))))
  /\ map PyFloat.is_finite nonfinite_values = [false; false; false; true; true; true].
Proof.
  split; [|split; [exact TrimFacts.isspace_code_points|];
           split; [exact TrimFacts.strip_trims|];
           repeat split; vm_compute; reflexivity].
  split.
  - intros [df H].
    destruct (InputFacts.prepare_input_cases f g) as [[vs [Hvs _]] | [e [_ He]]].
    + clear H. induction Hvs as [|x v feats vs [Hne Hv] _ IH]; constructor; [|exact IH].
      exists (raw_value f x). split; [apply TrimFacts.strip_trims|].
      split; [exact Hne | congruence].
    + rewrite H in He. discriminate He.
  - intros H.
    assert (Hvs : exists vs, Forall2 (numeric f) (g_FEATURES g) vs).
    { induction H as [|x feats [core [Ht [Hne Hv]]] _ [vs IH]]; [exists []; constructor|].
      apply TrimFacts.trims_to_strip in Ht.
      destruct (PyFloat.of_str core) as [v|] eqn:E; [|congruence].
      exists (v :: vs). constructor; [|exact IH].
      unfold numeric, raw_value. rewrite Ht. now split. }
    destruct Hvs as [vs Hvs]. eexists.
    exact (InputFacts.prepare_input_numeric f g vs Hvs).
Qed.

(** C10, as the code has it.  For requests whose form is read, that is
    for which evaluating [request.form] returns: two forms that give
    every schema field the same value get the same result from [predict]
    in the same namespace (the same calls, status and body), and a
    submitted pair whose key is not a schema field changes neither the
    outcome of [prepare_input] nor the result of [predict], wherever it
    stands in the form.  When evaluating [request.form] raises an
    instance of [Exception] and the model is present, the answer is
    status 400 with the message of that error, whatever was submitted. *)
Theorem predict_noninterference (g : globals) :
  (forall f1 f2,
      agree_on (g_FEATURES g) f1 f2 ->
      predict (Return f1) g = predict (Return f2) g)
  /\ (forall pre post k v,
         ~ In k (g_FEATURES g) ->
         prepare_input (pre ++ (k, v) :: post)%list g = prepare_input (pre ++ post)%list g
         /\ predict (Return (pre ++ (k, v) :: post)%list) g
            = predict (Return (pre ++ post)%list) g)
  /\ (forall m e,
         g_model g = Some m ->
         isinstance e ExceptException = true ->
         predict (Raise e) g
         = (g, [],
            Return (mkResponse 400
                      (Json (JObject [("success", JBool false);
                                      ("error", JString (exn_str e))]))))).
Proof.
  split; [intros f1 f2; apply ViewFacts.predict_agree|]. split.
  - intros pre post k v Hk.
    assert (H : agree_on (g_FEATURES g) (pre ++ (k, v) :: post)%list (pre ++ post)%list).
    { intros feat Hin. apply ViewFacts.form_get_other. intros ->. contradiction. }
    split; [now apply ViewFacts.prepare_input_agree | now apply ViewFacts.predict_agree].
  - intros m e Hm He. exact (ViewFacts.predict_unreadable g m Hm e He).
Qed.

Lemma predict_noninterference_witness :
  predict (Return (("csrf_token", "1e9") :: canonical_form)) stub_globals
  = predict (Return canonical_form) stub_globals.
Proof.
  apply (proj1 (proj2 (predict_noninterference stub_globals))
           [] canonical_form "csrf_token" "1e9").
  vm_compute. intuition discriminate.
Defined.

(** C10 as stated fails: a request that submits the canonical values and
    995 more pairs under a key outside the schema agrees with the
    canonical request on the six schema fields, yet the framework refuses
    to read its form, and [predict] answers 400 where the canonical
    request gets 200. *)
Lemma crowded_request_differs :
  agree_on FEATURES canonical_form crowded_form
  /\ read_form canonical_form = Return canonical_form
  /\ read_form crowded_form = Raise request_entity_too_large
  /\ snd (predict (read_form canonical_form) stub_globals)
     = Return (mkResponse 200
                 (Json (JObject
                    [("success", JBool true);
                     ("prediction", JNumber (PyFloat.of_Z 42));
                     ("input",
                      JObject
                        [("Number_of_Customers_Per_Day", JNumber (PyFloat.of_Z 100));
                         ("Average_Order_Value", JNumber (PyFloat.of_Z2 11 (-1)));
                         ("Operating_Hours_Per_Day", JNumber (PyFloat.of_Z 10));
                         ("Number_of_Employees", JNumber (PyFloat.of_Z 3));
                         ("Marketing_Spend_Per_Day", JNumber (PyFloat.of_Z 20));
                         ("Location_Foot_Traffic", JNumber (PyFloat.of_Z 200))])])))
  /\ snd (predict (read_form crowded_form) stub_globals)
     = Return (mkResponse 400
                 (Json (JObject
                    [("success", JBool false);
                     ("error",
                      JString "413 Request Entity Too Large: The data value transmitted exceeds the capacity limit.")]))).
Proof.
  split.
  - intros feat Hin. unfold crowded_form.
    symmetry. apply FormFacts.form_get_first. exact Hin.
  - repeat split; vm_compute; reflexivity.
Qed.

(* ================================================================== *)
(** ** Further properties of the views *)

(** X1.  White space around a submitted value is ignored: padding the
    value of any pair of the form with white space, before and after,
    changes neither what [prepare_input] does nor the result of
    [predict] (calls, status and body). *)
Theorem predict_ignores_padding (g : globals) (pre post : form) (k v a b : string) :
  all_space a = true ->
  all_space b = true ->
  prepare_input (pre ++ (k, (a ++ v ++ b)%string) :: post)%list g
  = prepare_input (pre ++ (k, v) :: post)%list g
  /\ predict (Return (pre ++ (k, (a ++ v ++ b)%string) :: post)%list) g
     = predict (Return (pre ++ (k, v) :: post)%list) g.
Proof.
  intros Ha Hb.
  assert (H : forall feat, In feat (g_FEATURES g) ->
                raw_value (pre ++ (k, (a ++ v ++ b)%string) :: post)%list feat
                = raw_value (pre ++ (k, v) :: post)%list feat).
  { intros feat _. apply FormFacts.raw_value_same_trim.
    now apply TrimFacts.strip_padding. }
  split.
  - now apply FormFacts.prepare_input_agree_raw.
  - now apply FormFacts.predict_agree_raw.
Qed.

Lemma predict_ignores_padding_witness :
  prepare_input [("Number_of_Customers_Per_Day", "  " ++ "100" ++ " ")] stub_globals
  = prepare_input [("Number_of_Customers_Per_Day", "100")] stub_globals
  /\ predict (Return [("Number_of_Customers_Per_Day", "  " ++ "100" ++ " ")]) stub_globals
     = predict (Return [("Number_of_Customers_Per_Day", "100")]) stub_globals.
Proof.
  apply (predict_ignores_padding stub_globals [] []
           "Number_of_Customers_Per_Day" "100" "  " " "); reflexivity.
Defined.

(** X2.  A field submitted blank is treated as a field not submitted: a
    pair whose value is only white space, under a key that is not
    submitted again later in the form, can be removed without changing
    the result of [predict]. *)
Theorem blank_is_absent (g : globals) (pre post : form) (k w : string) :
  all_space w = true ->
  ~ In k (keys post) ->
  prepare_input (pre ++ (k, w) :: post)%list g = prepare_input (pre ++ post)%list g
  /\ predict (Return (pre ++ (k, w) :: post)%list) g
     = predict (Return (pre ++ post)%list) g.
Proof.
  intros Hw Hk.
  assert (H : forall feat, In feat (g_FEATURES g) ->
                raw_value (pre ++ (k, w) :: post)%list feat
                = raw_value (pre ++ post)%list feat).
  { intros feat _. unfold raw_value.
    destruct (String.eqb_spec k feat) as [<- | Hne].
    - rewrite !FormFacts.form_get_app. simpl. rewrite String.eqb_refl.
      rewrite (FormFacts.form_get_absent post k "" Hk).
      induction pre as [|[k' v'] pre IH]; simpl.
      + now apply TrimFacts.strip_all_space.
      + destruct (String.eqb k' k); [reflexivity | exact IH].
    - now rewrite ViewFacts.form_get_other. }
  split.
  - now apply FormFacts.prepare_input_agree_raw.
  - now apply FormFacts.predict_agree_raw.
Qed.

Lemma blank_is_absent_witness :
  prepare_input (("Number_of_Customers_Per_Day", "  ") :: tl canonical_form) stub_globals
  = prepare_input (tl canonical_form) stub_globals
  /\ predict (Return (("Number_of_Customers_Per_Day", "  ") :: tl canonical_form))
       stub_globals
     = predict (Return (tl canonical_form)) stub_globals.
Proof.
  apply (blank_is_absent stub_globals [] (tl canonical_form)
           "Number_of_Customers_Per_Day" "  ").
  - reflexivity.
  - vm_compute. intuition discriminate.
Defined.

(** X3.  Only the first value submitted under a key is read: a pair whose
    key already occurs earlier in the form can be removed, or given any
    value, without changing the result of [predict]. *)
Theorem first_value_wins (g : globals) (pre post : form) (k v : string) :
  In k (keys pre) ->
  prepare_input (pre ++ (k, v) :: post)%list g = prepare_input (pre ++ post)%list g
  /\ predict (Return (pre ++ (k, v) :: post)%list) g
     = predict (Return (pre ++ post)%list) g.
Proof.
  intros Hk.
  assert (H : agree_on (g_FEATURES g) (pre ++ (k, v) :: post)%list (pre ++ post)%list).
  { intros feat _. destruct (String.eqb_spec k feat) as [<- | Hne].
    - now rewrite !FormFacts.form_get_first.
    - now apply ViewFacts.form_get_other. }
  split.
  - now apply ViewFacts.prepare_input_agree.
  - now apply ViewFacts.predict_agree.
Qed.

Lemma first_value_wins_witness :
  prepare_input (canonical_form ++ [("Average_Order_Value", "abc")])%list stub_globals
  = prepare_input (canonical_form ++ [])%list stub_globals
  /\ predict (Return (canonical_form ++ [("Average_Order_Value", "abc")])%list) stub_globals
     = predict (Return (canonical_form ++ [])%list) stub_globals.
Proof.
  apply (first_value_wins stub_globals canonical_form [] "Average_Order_Value" "abc").
  right. left. reflexivity.
Defined.

(** X4.  The model is called only with validated input, and at most once
    per request: [predict] makes no call when the model is absent, when
    evaluating [request.form] raises or when [prepare_input] raises; when
    the model is present and every field is numeric it makes exactly one
    call, [model.predict] on the one-row frame of the values read,
    whether that call then returns or raises. *)
Theorem model_called_once_validated (f : form) (g : globals) :
  (g_model g = None -> trace_of (predict (Return f) g) = [])
  /\ (forall e, prepare_input f g = (g, [], Raise e) ->
                trace_of (predict (Return f) g) = [])
  /\ (forall m vs,
         g_model g = Some m ->
         Forall2 (numeric f) (g_FEATURES g) vs ->
         trace_of (predict (Return f) g)
         = [EvPredict (mkDataFrame (g_FEATURES g) [vs])])
  /\ (trace_of (predict (Return f) g) = []
      \/ exists vs, Forall2 (numeric f) (g_FEATURES g) vs
                    /\ trace_of (predict (Return f) g)
                       = [EvPredict (mkDataFrame (g_FEATURES g) [vs])])
  /\ (forall e, trace_of (predict (Raise e) g) = []).
Proof.
  assert (Hnum : forall m vs,
             g_model g = Some m ->
             Forall2 (numeric f) (g_FEATURES g) vs ->
             trace_of (predict (Return f) g)
             = [EvPredict (mkDataFrame (g_FEATURES g) [vs])]).
  { intros m vs Hm Hvs.
    pose proof (InputFacts.prepare_input_numeric f g vs Hvs) as H.
    exact (ViewFacts.predict_invoked_trace g m Hm f _ H). }
  assert (Hrej : forall e, prepare_input f g = (g, [], Raise e) ->
                           trace_of (predict (Return f) g) = []).
  { intros e H. destruct (g_model g) as [m|] eqn:Hm.
    - destruct (InputFacts.prepare_input_cases f g) as [[vs [_ H']] | [e' [Hs H']]].
      + rewrite H in H'. discriminate H'.
      + rewrite H in H'. injection H' as ->.
        now rewrite (ViewFacts.predict_rejected g m Hm f e' H
                       (ViewFacts.stops_at_error _ _ _ Hs)).
    - now rewrite (ViewFacts.predict_absent g _ Hm). }
  split; [intros Hm; now rewrite (ViewFacts.predict_absent g _ Hm)|].
  split; [exact Hrej|]. split; [exact Hnum|]. split.
  - destruct (InputFacts.prepare_input_cases f g) as [[vs [Hvs _]] | [e [_ H]]].
    + destruct (g_model g) as [m|] eqn:Hm.
      * right. exists vs. split; [exact Hvs | now apply (Hnum m)].
      * left. now rewrite (ViewFacts.predict_absent g _ Hm).
    + left. now apply (Hrej e).
  - intros e. destruct (g_model g) as [m|] eqn:Hm.
    + destruct (isinstance e ExceptException) eqn:He.
      * now rewrite (ViewFacts.predict_unreadable g m Hm e He).
      * now rewrite (ViewFacts.predict_read_interrupted g m Hm e He).
    + now rewrite (ViewFacts.predict_absent g _ Hm).
Qed.

(** X5.  [prepare_input] raises nothing but a [ValueError] about a schema
    field: its message is [Missing value for X] for a field X that is
    blank once trimmed, or [Invalid numeric value for X: 'raw'] for a
    field X whose trimmed value [raw] is rejected by [float]; the shape
    check of the frame constructor never fails.  So every answer with
    status 400 to a request whose form was read is the JSON object with
    [success] false and one of these two messages under [error]. *)
Theorem rejection_names_a_field (f : form) (g : globals) :
  (forall g' t e,
      prepare_input f g = (g', t, Raise e) ->
      exn_class e = ValueError
      /\ exists x, In x (g_FEATURES g)
                   /\ ((raw_value f x = "" /\ exn_str e = "Missing value for " ++ x)
                       \/ (raw_value f x <> ""
                           /\ PyFloat.of_str (raw_value f x) = None
                           /\ exn_str e
                              = "Invalid numeric value for " ++ x ++ ": '"
                                ++ raw_value f x ++ "'")))
  /\ (forall t r,
         predict (Return f) g = (g, t, Return r) ->
         status r = 400 ->
         exists x, In x (g_FEATURES g)
                   /\ (resp_body r
                       = Json (JObject
                                 [("success", JBool false);
                                  ("error", JString ("Missing value for " ++ x))])
                       \/ resp_body r
                          = Json (JObject
                                    [("success", JBool false);
                                     ("error",
                                      JString ("Invalid numeric value for " ++ x ++ ": '"
                                               ++ raw_value f x ++ "'"))]))).
Proof.
  assert (Hstop : forall e, stops_at f (g_FEATURES g) e ->
            exn_class e = ValueError
            /\ exists x, In x (g_FEATURES g)
                 /\ ((raw_value f x = "" /\ exn_str e = "Missing value for " ++ x)
                     \/ (raw_value f x <> ""
                         /\ PyFloat.of_str (raw_value f x) = None
                         /\ exn_str e
                            = "Invalid numeric value for " ++ x ++ ": '"
                              ++ raw_value f x ++ "'"))).
  { intros e [pre post x vs Hs _ Hx -> | pre post x vs Hs _ Hne Hx ->];
      (split; [reflexivity|]); exists x;
      (split; [rewrite Hs; apply in_or_app; right; now left|]).
    - left. now split.
    - right. now repeat split. }
  split.
  - intros g' t e H.
    destruct (InputFacts.prepare_input_cases f g) as [[vs [_ H']] | [e' [Hs H']]].
    + rewrite H in H'. discriminate H'.
    + rewrite H in H'. injection H' as _ _ ->. now apply Hstop.
  - intros t r H Hst.
    destruct (g_model g) as [m|] eqn:Hm.
    + destruct (InputFacts.prepare_input_cases f g) as [[vs [_ H']] | [e [Hs H']]].
      * rewrite (ViewFacts.predict_invoked g m Hm f _ H') in H.
        destruct (invoke m (mkDataFrame (g_FEATURES g) [vs])) as [df' [v|e]].
        -- destruct (to_dict_records df'); [discriminate H|].
           injection H as _ <-. discriminate Hst.
        -- destruct (isinstance e ExceptException); [|discriminate H].
           injection H as _ <-. discriminate Hst.
      * rewrite (ViewFacts.predict_rejected g m Hm f e H'
                   (ViewFacts.stops_at_error _ _ _ Hs)) in H.
        injection H as _ <-. simpl.
        destruct (Hstop e Hs) as [_ [x [Hin [[_ ->] | [_ [_ ->]]]]]];
          exists x; (split; [exact Hin|]); [now left | now right].
    + rewrite (ViewFacts.predict_absent g _ Hm) in H.
      injection H as _ <-. discriminate Hst.
Qed.

(** X6.  After start-up an absent model has one of two causes, and the
    answer of [predict] tells them apart.  Either the three attempts
    raised: the stored error is the aggregated message, which is never
    empty, [predict] answers every request with status 500 and the JSON
    object whose [error] is [Model not loaded: ] followed by it, and
    [index] hands the same text to [render_template].  Or an attempt
    returned Python's [None]: no error is stored and the [error] of the
    answer is [Model not loaded: unknown]. *)
Theorem unavailable_after_startup
    (env : loaders) (rf : outcome form) (render_template : renderer)
    (t : list event) (g0 : globals) :
  startup env tt = (tt, t, Return g0) ->
  g_model g0 = None ->
  (exists e1 e2 e3,
      joblib_load env MODEL_PATH = Raise e1
      /\ pickle_load_latin1 env MODEL_PATH = Raise e2
      /\ dill_load env MODEL_PATH = Raise e3
      /\ g_model_load_error g0 = Some (aggregated_message e1 e2 e3)
      /\ aggregated_message e1 e2 e3 <> ""
      /\ predict rf g0
         = (g0, [],
            Return (mkResponse 500
                      (Json (JObject
                               [("success", JBool false);
                                ("error",
                                 JString ("Model not loaded: "
                                          ++ aggregated_message e1 e2 e3))]))))
      /\ index render_template g0
         = (g0, [],
            match render_template "index.html" FEATURES
                    (Some (aggregated_message e1 e2 e3)) with
            | Return page => Return (mkResponse 200 (Html page))
            | Raise e => Raise e
            end))
  \/ (load_model env MODEL_PATH tt = (tt, t, Return None)
      /\ g_model_load_error g0 = None
      /\ predict rf g0
         = (g0, [],
            Return (mkResponse 500
                      (Json (JObject
                               [("success", JBool false);
                                ("error", JString "Model not loaded: unknown")]))))).
Proof.
  intros Hs Hm.
  destruct (joblib_load env MODEL_PATH) as [m1|e1] eqn:H1.
  { pose proof (LoaderFacts.load_first env MODEL_PATH tt m1 H1) as Hl.
    rewrite (LoaderFacts.startup_loaded env _ _ Hl) in Hs.
    injection Hs as <- <-. simpl in Hm. subst m1. right.
    split; [exact Hl|]. split; [reflexivity|]. reflexivity. }
  destruct (pickle_load_latin1 env MODEL_PATH) as [m2|e2] eqn:H2.
  { pose proof (LoaderFacts.load_second env MODEL_PATH tt e1 m2 H1 H2) as Hl.
    rewrite (LoaderFacts.startup_loaded env _ _ Hl) in Hs.
    injection Hs as <- <-. simpl in Hm. subst m2. right.
    split; [exact Hl|]. split; [reflexivity|]. reflexivity. }
  destruct (dill_load env MODEL_PATH) as [m3|e3] eqn:H3.
  { pose proof (LoaderFacts.load_third env MODEL_PATH tt e1 e2 m3 H1 H2 H3) as Hl.
    rewrite (LoaderFacts.startup_loaded env _ _ Hl) in Hs.
    injection Hs as <- <-. simpl in Hm. subst m3. right.
    split; [exact Hl|]. split; [reflexivity|]. reflexivity. }
  pose proof (LoaderFacts.load_none env MODEL_PATH tt e1 e2 e3 H1 H2 H3) as Hl.
  rewrite (LoaderFacts.startup_failed env _ _ Hl eq_refl) in Hs.
  injection Hs as <- <-. left. exists e1, e2, e3.
  repeat (split; [reflexivity|]). split; [discriminate|]. split; [reflexivity|].
  unfold index, bind, read, lift. simpl.
  destruct (render_template _ _ _); reflexivity.
Qed.

Lemma unavailable_after_startup_witness :
  ((exists e1 e2 e3,
      joblib_load nothing_loads MODEL_PATH = Raise e1
      /\ pickle_load_latin1 nothing_loads MODEL_PATH = Raise e2
      /\ dill_load nothing_loads MODEL_PATH = Raise e3
      /\ g_model_load_error unavailable_globals = Some (aggregated_message e1 e2 e3)
      /\ aggregated_message e1 e2 e3 <> ""
      /\ predict (Return canonical_form) unavailable_globals
         = (unavailable_globals, [],
            Return (mkResponse 500
                      (Json (JObject
                               [("success", JBool false);
                                ("error",
                                 JString ("Model not loaded: "
                                          ++ aggregated_message e1 e2 e3))]))))
      /\ index template_missing unavailable_globals
         = (unavailable_globals, [],
            match template_missing "index.html" FEATURES
                    (Some (aggregated_message e1 e2 e3)) with
            | Return page => Return (mkResponse 200 (Html page))
            | Raise e => Raise e
            end))
  \/ (load_model nothing_loads MODEL_PATH tt = (tt, all_attempts MODEL_PATH, Return None)
      /\ g_model_load_error unavailable_globals = None
      /\ predict (Return canonical_form) unavailable_globals
         = (unavailable_globals, [],
            Return (mkResponse 500
                      (Json (JObject
                               [("success", JBool false);
                                ("error", JString "Model not loaded: unknown")]))))))
  /\ ((exists e1 e2 e3,
      joblib_load none_stored MODEL_PATH = Raise e1
      /\ pickle_load_latin1 none_stored MODEL_PATH = Raise e2
      /\ dill_load none_stored MODEL_PATH = Raise e3
      /\ g_model_load_error (mkGlobals FEATURES None None) = Some (aggregated_message e1 e2 e3)
      /\ aggregated_message e1 e2 e3 <> ""
      /\ predict (Raise request_entity_too_large) (mkGlobals FEATURES None None)
         = ((mkGlobals FEATURES None None), [],
            Return (mkResponse 500
                      (Json (JObject
                               [("success", JBool false);
                                ("error",
                                 JString ("Model not loaded: "
                                          ++ aggregated_message e1 e2 e3))]))))
      /\ index error_page (mkGlobals FEATURES None None)
         = ((mkGlobals FEATURES None None), [],
            match error_page "index.html" FEATURES
                    (Some (aggregated_message e1 e2 e3)) with
            | Return page => Return (mkResponse 200 (Html page))
            | Raise e => Raise e
            end))
  \/ (load_model none_stored MODEL_PATH tt = (tt, [EvLoad Joblib MODEL_PATH], Return None)
      /\ g_model_load_error (mkGlobals FEATURES None None) = None
      /\ predict (Raise request_entity_too_large) (mkGlobals FEATURES None None)
         = ((mkGlobals FEATURES None None), [],
            Return (mkResponse 500
                      (Json (JObject
                               [("success", JBool false);
                                ("error", JString "Model not loaded: unknown")])))))).
Proof.
  split.
  - apply (unavailable_after_startup nothing_loads (Return canonical_form)
             template_missing (all_attempts MODEL_PATH) unavailable_globals);
      reflexivity.
  - apply (unavailable_after_startup none_stored (Raise request_entity_too_large)
             error_page [EvLoad Joblib MODEL_PATH] (mkGlobals FEATURES None None));
      reflexivity.
Defined.

(** X8.  Only the first problem is looked at: when a schema field is
    blank or rejected and the fields before it are numeric, the fields
    after it are not examined, so two forms that agree on the fields up
    to that one get the same error from [prepare_input] and the same
    answer from [predict], whatever they hold for the later fields. *)
Theorem later_fields_unread
    (f1 f2 : form) (g : globals) (pre post : list string) (x : string) (vs : list float) :
  g_FEATURES g = (pre ++ x :: post)%list ->
  Forall2 (numeric f1) pre vs ->
  (raw_value f1 x = "" \/ PyFloat.of_str (raw_value f1 x) = None) ->
  agree_on (pre ++ [x])%list f1 f2 ->
  prepare_input f2 g = prepare_input f1 g
  /\ predict (Return f2) g = predict (Return f1) g.
Proof.
  intros Hg Hpre Hx Hag.
  assert (Hraw : forall y, In y (pre ++ [x])%list -> raw_value f2 y = raw_value f1 y).
  { intros y Hy. unfold raw_value. now rewrite (Hag y Hy). }
  assert (Hpre2 : Forall2 (numeric f2) pre vs).
  { assert (Hin : forall y, In y pre -> raw_value f2 y = raw_value f1 y).
    { intros y Hy. apply Hraw, in_or_app. now left. }
    clear - Hpre Hin. induction Hpre as [|y v pre vs Hy _ IH]; constructor.
    - unfold numeric in *. rewrite (Hin y) by now left. exact Hy.
    - apply IH. intros z Hz. apply Hin. now right. }
  assert (Hx2 : raw_value f2 x = raw_value f1 x).
  { apply Hraw, in_or_app. right. now left. }
  assert (He : exists e, stops_at f1 (g_FEATURES g) e /\ stops_at f2 (g_FEATURES g) e).
  { destruct (String.eqb_spec (raw_value f1 x) "") as [Hb | Hnb].
    - exists (missing_error x). split.
      + now apply (StopsMissing f1 _ _ pre post x vs).
      + apply (StopsMissing f2 _ _ pre post x vs); auto. now rewrite Hx2.
    - destruct Hx as [Hb | Hn]; [contradiction|].
      exists (invalid_error x (raw_value f1 x)). split.
      + now apply (StopsInvalid f1 _ _ pre post x vs).
      + apply (StopsInvalid f2 _ _ pre post x vs); auto; now rewrite Hx2. }
  destruct He as [e [H1 H2]].
  pose proof (InputFacts.prepare_input_stops f1 g e H1) as P1.
  pose proof (InputFacts.prepare_input_stops f2 g e H2) as P2.
  split; [now rewrite P1, P2|].
  apply ViewFacts.predict_same_input. now rewrite P1, P2.
Qed.

Lemma later_fields_unread_witness :
  prepare_input (("Operating_Hours_Per_Day", "abc") :: letters_then_blank) stub_globals
  = prepare_input letters_then_blank stub_globals
  /\ predict (Return (("Operating_Hours_Per_Day", "abc") :: letters_then_blank)) stub_globals
     = predict (Return letters_then_blank) stub_globals.
Proof.
  apply (later_fields_unread letters_then_blank
           (("Operating_Hours_Per_Day", "abc") :: letters_then_blank) stub_globals
           [] ["Average_Order_Value"; "Operating_Hours_Per_Day"; "Number_of_Employees";
               "Marketing_Spend_Per_Day"; "Location_Foot_Traffic"]
           "Number_of_Customers_Per_Day" []).
  - reflexivity.
  - constructor.
  - right. reflexivity.
  - intros feat [<- | []]. reflexivity.
Defined.



